(** * libtock ADC client (userland/libtock/adc.c, adc.h)

    A shallow embedding of the user-space ADC driver client of Tock and
    the properties of its three modes of use: the synchronous single
    read, continuous sampling with a user handler, and the negotiation
    of the nearest achievable sampling frequency.

    C [int], [uint8_t] and [uint32_t] values are integers of [Z];
    conversions to [uint32_t] are written out with [to_uint32], and the
    range of a typed parameter is a hypothesis where it matters.  The three file-scope
    objects of adc.c ([result], [cont_cb], [frequency]) are fields of an
    explicit [world], next to the part of the kernel the client can
    observe: the upcall registered on the driver, the statuses the
    kernel answers system calls with, and the upcalls it has queued. *)

From Stdlib Require Import ZArith List Bool Lia.
Import ListNotations.
Local Open Scope Z_scope.

(** ** Machine integers *)

Definition to_uint32 (z : Z) : Z := z mod 2 ^ 32.

Definition int_range (z : Z) : Prop := - 2 ^ 31 <= z < 2 ^ 31.
Definition uint8_range (z : Z) : Prop := 0 <= z < 2 ^ 8.
Definition uint32_range (z : Z) : Prop := 0 <= z < 2 ^ 32.

(** ** Data of adc.c *)

(** [#define DRIVER_NUM_ADC 7] *)
Definition DRIVER_NUM_ADC : Z := 7.

(** [struct adc_data { int reading; bool fired; }] *)
Record adc_data : Type := { reading : Z; fired : bool }.

(** [struct adc_freq { int value; bool computed; }] *)
Record adc_freq : Type := { value : Z; computed : bool }.

(** A user handler [void ( * )(int)].  Its body belongs to the
    application; the client only stores the pointer and calls through
    it, so a handler is an identity and each call is recorded. *)
Definition handler : Type := nat.

(** The two upcall routines of adc.c, as the function pointers handed to
    [subscribe]. *)
Inductive subscribe_cb : Type := Fn_adc_cb | Fn_adc_freq_cb.

(** The [void*] user data registered with an upcall: the address of one
    of the two static slots. *)
Inductive userdata : Type := Ref_result | Ref_frequency.

(** The [bool*] handed to [yield_for]. *)
Inductive flag_ref : Type := Flag_fired | Flag_computed.

(** The three integers the kernel passes to an upcall routine. *)
Record upcall : Type :=
  { callback_type : Z; up_channel : Z; up_value : Z }.

(** What the client does that can be seen from outside. *)
Inductive event : Type :=
| Ev_subscribe (driver slot : Z) (cb : subscribe_cb) (ud : userdata)
               (status : Z)
| Ev_command (driver opcode arg : Z) (status : Z)
| Ev_handler (h : handler) (v : Z) (seen : adc_data).

Record world : Type :=
  { (* adc.c *)
    result : adc_data;
    cont_cb : option handler;
    frequency : adc_freq;
    (* kernel *)
    registered : option (subscribe_cb * userdata);
    kernel_status : nat -> Z;
    syscalls : nat;
    pending : list upcall;
    (* observation *)
    trace : list event }.

Definition set_result (r : adc_data) (w : world) : world :=
  {| result := r; cont_cb := cont_cb w; frequency := frequency w;
     registered := registered w; kernel_status := kernel_status w;
     syscalls := syscalls w; pending := pending w; trace := trace w |}.

Definition set_cont_cb (c : option handler) (w : world) : world :=
  {| result := result w; cont_cb := c; frequency := frequency w;
     registered := registered w; kernel_status := kernel_status w;
     syscalls := syscalls w; pending := pending w; trace := trace w |}.

Definition set_frequency (f : adc_freq) (w : world) : world :=
  {| result := result w; cont_cb := cont_cb w; frequency := f;
     registered := registered w; kernel_status := kernel_status w;
     syscalls := syscalls w; pending := pending w; trace := trace w |}.

Definition set_registered (r : option (subscribe_cb * userdata))
  (w : world) : world :=
  {| result := result w; cont_cb := cont_cb w; frequency := frequency w;
     registered := r; kernel_status := kernel_status w;
     syscalls := syscalls w; pending := pending w; trace := trace w |}.

Definition set_pending (q : list upcall) (w : world) : world :=
  {| result := result w; cont_cb := cont_cb w; frequency := frequency w;
     registered := registered w; kernel_status := kernel_status w;
     syscalls := syscalls w; pending := q; trace := trace w |}.

Definition tick (w : world) : world :=
  {| result := result w; cont_cb := cont_cb w; frequency := frequency w;
     registered := registered w; kernel_status := kernel_status w;
     syscalls := S (syscalls w); pending := pending w; trace := trace w |}.

Definition log (e : event) (w : world) : world :=
  {| result := result w; cont_cb := cont_cb w; frequency := frequency w;
     registered := registered w; kernel_status := kernel_status w;
     syscalls := syscalls w; pending := pending w;
     trace := trace w ++ [e] |}.

(** The calls made through [cont_cb], oldest first. *)
Fixpoint handler_calls_of (t : list event) : list (handler * Z) :=
  match t with
  | [] => []
  | Ev_handler h v _ :: t' => (h, v) :: handler_calls_of t'
  | _ :: t' => handler_calls_of t'
  end.

Definition handler_calls (w : world) : list (handler * Z) :=
  handler_calls_of (trace w).

(** ** Computations of the client

    A call either returns or stays suspended in [yield_for] because the
    kernel has nothing more to deliver. *)

Inductive outcome (A : Type) : Type :=
| Returned (a : A)
| Suspended.
Arguments Returned {A} a.
Arguments Suspended {A}.

Definition M (A : Type) : Type := world -> outcome A * world.

Definition ret {A} (a : A) : M A := fun w => (Returned a, w).

Definition bind {A B} (c : M A) (k : A -> M B) : M B :=
  fun w =>
    match c w with
    | (Returned a, w') => k a w'
    | (Suspended, w') => (Suspended, w')
    end.

Definition gets {A} (f : world -> A) : M A := fun w => (Returned (f w), w).

Definition modify (f : world -> world) : M unit :=
  fun w => (Returned tt, f w).

Declare Scope adc_scope.
Delimit Scope adc_scope with adc.
Notation "x <- c ;; k" := (bind c (fun x => k))
  (at level 61, c at next level, right associativity) : adc_scope.
Notation "c ;; k" := (bind c (fun _ => k))
  (at level 61, right associativity) : adc_scope.
Local Open Scope adc_scope.

(** ** System calls (tock.h) *)

(** Modelled from the spec: [subscribe] belongs to the runtime (tock.c),
    which is not among the sources.  It answers with a status; a
    subscription that is accepted replaces whatever routine and context
    were registered on the driver's single slot, one that is rejected
    (negative status) changes nothing. *)
Definition subscribe (driver slot : Z) (cb : subscribe_cb) (ud : userdata)
  : M Z :=
  fun w =>
    let s := kernel_status w (syscalls w) in
    let w1 := log (Ev_subscribe driver slot cb ud s) (tick w) in
    (Returned s,
     if (driver =? DRIVER_NUM_ADC) && (slot =? 0) && (0 <=? s)
     then set_registered (Some (cb, ud)) w1
     else w1).

(** Modelled from the spec: [command] belongs to the runtime (tock.c).
    A request to the driver carrying one integer, answered at once with
    a status. *)
Definition command (driver opcode arg : Z) : M Z :=
  fun w =>
    let s := kernel_status w (syscalls w) in
    (Returned s, log (Ev_command driver opcode arg s) (tick w)).

(** ** The upcall routines *)

(** [ud->reading = v] and [ud->value = v]: both structs start with the
    [int]. *)
Definition store_int (ud : userdata) (v : Z) (w : world) : world :=
  match ud with
  | Ref_result =>
      set_result {| reading := v; fired := fired (result w) |} w
  | Ref_frequency =>
      set_frequency {| value := v; computed := computed (frequency w) |} w
  end.

(** [ud->fired = b] and [ud->computed = b]: the [bool] follows. *)
Definition store_flag (ud : userdata) (b : bool) (w : world) : world :=
  match ud with
  | Ref_result =>
      set_result {| reading := reading (result w); fired := b |} w
  | Ref_frequency =>
      set_frequency {| value := value (frequency w); computed := b |} w
  end.

(** [static void adc_cb(int callback_type, int channel, int reading,
    void* ud)] *)
Definition adc_cb (callback_type channel reading : Z) (ud : userdata)
  (w : world) : world :=
  let w1 := store_int ud reading w in
  let w2 := store_flag ud true w1 in
  (* In continuous mode *)
  match cont_cb w2 with
  | Some h => log (Ev_handler h reading (result w2)) w2
  | None => w2
  end.

(** [static void adc_freq_cb(int callback_type, int channel, int value,
    void* ud)] *)
Definition adc_freq_cb (callback_type channel value : Z) (ud : userdata)
  (w : world) : world :=
  let w1 := store_int ud value w in
  store_flag ud true w1.

Definition invoke (cb : subscribe_cb) (u : upcall) (ud : userdata)
  : world -> world :=
  match cb with
  | Fn_adc_cb => adc_cb (callback_type u) (up_channel u) (up_value u) ud
  | Fn_adc_freq_cb =>
      adc_freq_cb (callback_type u) (up_channel u) (up_value u) ud
  end.

(** The kernel hands an upcall to the routine registered at that moment,
    with the context registered with it. *)
Definition deliver (u : upcall) (w : world) : world :=
  match registered w with
  | Some (cb, ud) => invoke cb u ud w
  | None => w
  end.

(** Modelled from the spec: [yield] belongs to the runtime (tock.c).  It
    gives control to the kernel until one upcall has run. *)
Definition yield : M unit :=
  fun w =>
    match pending w with
    | [] => (Suspended, w)
    | u :: q => (Returned tt, deliver u (set_pending q w))
    end.

Definition read_flag (f : flag_ref) (w : world) : bool :=
  match f with
  | Flag_fired => fired (result w)
  | Flag_computed => computed (frequency w)
  end.

(** Modelled from the spec: [yield_for] belongs to the runtime (tock.c).
    It suspends the caller until an upcall has set the flag:
    [while (!*cond) yield();].  The loop runs along the upcalls the
    kernel has queued. *)
Fixpoint yield_for_loop (cond : flag_ref) (q : list upcall) (w : world)
  : outcome unit * world :=
  if read_flag cond w then (Returned tt, w)
  else
    match q with
    | [] => (Suspended, w)
    | u :: q' => yield_for_loop cond q' (deliver u (set_pending q' w))
    end.

Definition yield_for (cond : flag_ref) : M unit :=
  fun w => yield_for_loop cond (pending w) w.

(** ** The client (adc.c) *)

(** [int adc_set_callback(subscribe_cb callback, void* callback_args)] *)
Definition adc_set_callback (callback : subscribe_cb)
  (callback_args : userdata) : M Z :=
  subscribe DRIVER_NUM_ADC 0 callback callback_args.

(** [int adc_initialize(void)] *)
Definition adc_initialize : M Z := command DRIVER_NUM_ADC 1 0.

(** [int adc_single_sample(uint8_t channel)] *)
Definition adc_single_sample (channel : Z) : M Z :=
  command DRIVER_NUM_ADC 2 channel.

(** [uint32_t chan_freq = (frequency << 8) | (channel);], the shift
    being taken in [uint32_t]. *)
Definition chan_freq (channel frequency : Z) : Z :=
  Z.lor (to_uint32 (Z.shiftl frequency 8)) channel.

(** [int adc_cont_sample(uint8_t channel, uint32_t frequency)] *)
Definition adc_cont_sample (channel frequency : Z) : M Z :=
  command DRIVER_NUM_ADC 3 (chan_freq channel frequency).

(** [int adc_cancel_sampling(void)] *)
Definition adc_cancel_sampling : M Z := command DRIVER_NUM_ADC 4 0.

(** [int adc_compute_frequency(uint32_t frequency)] *)
Definition adc_compute_frequency (frequency : Z) : M Z :=
  command DRIVER_NUM_ADC 5 frequency.

(** [int adc_read_single_sample(uint8_t channel)] *)
Definition adc_read_single_sample (channel : Z) : M Z :=
  modify (set_cont_cb None) ;;
  modify (store_flag Ref_result false) ;;
  err <- adc_set_callback Fn_adc_cb Ref_result ;;
  if err <? 0 then ret err
  else
    err <- adc_single_sample channel ;;
    if err <? 0 then ret err
    else
      (* Wait for the ADC callback. *)
      yield_for Flag_fired ;;
      gets (fun w => reading (result w)).

(** [int adc_read_cont_sample(uint8_t channel, uint32_t frequency,
    void ( *cb)(int))]; a null [cb] is [None]. *)
Definition adc_read_cont_sample (channel frequency : Z)
  (cb : option handler) : M Z :=
  modify (set_cont_cb cb) ;;
  err <- adc_set_callback Fn_adc_cb Ref_result ;;
  if err <? 0 then ret err
  else adc_cont_sample channel frequency.

(** Modelled from the spec: [uint32_t adc_nearest_sampling_freq(uint32_t
    frequency)] has no well-formed body in adc.c.  Its parameter hides
    the file-scope struct of the same name, so that [frequency.computed]
    and [frequency.value] (lines 101, 111 and 113) are member accesses on
    an integer, and [&frequency] (line 104) is the address of the
    parameter, not of the slot.  What is modelled is the algorithm the
    spec gives for the negotiation (section 4.3): reset the computed
    flag of the frequency slot, register [adc_freq_cb] with that slot as
    its context, issue the compute-frequency command with the requested
    frequency, here [requested], wait for the flag, return the value of
    the slot.  The two error returns and the conversion of every result
    to [uint32_t] are those of lines 98, 105 and 108.  No property of
    this definition is a property of the function as adc.c has it. *)
Definition adc_nearest_sampling_freq (requested : Z) : M Z :=
  modify (store_flag Ref_frequency false) ;;
  (* Callback used as a mechanism for retrieving the value
     of the nearest achievable frequency. *)
  err <- adc_set_callback Fn_adc_freq_cb Ref_frequency ;;
  if err <? 0 then ret (to_uint32 err)
  else
    err <- adc_compute_frequency requested ;;
    if err <? 0 then ret (to_uint32 err)
    else
      (* Wait for callback. *)
      yield_for Flag_computed ;;
      gets (fun w => to_uint32 (value (frequency w))).

(** ** Applications

    What an application can do with the client: any sequence of calls of
    its functions, and [yield] to let the kernel deliver an upcall. *)

Inductive api_call : Type :=
| Call_set_callback (cb : subscribe_cb) (ud : userdata)
| Call_initialize
| Call_single_sample (channel : Z)
| Call_cont_sample (channel frequency : Z)
| Call_cancel_sampling
| Call_compute_frequency (frequency : Z)
| Call_read_single_sample (channel : Z)
| Call_read_cont_sample (channel frequency : Z) (cb : option handler)
| Call_nearest_sampling_freq (frequency : Z)
| Call_yield.

Definition discard {A} (c : M A) : M unit := _ <- c ;; ret tt.

Definition call (c : api_call) : M unit :=
  match c with
  | Call_set_callback cb ud => discard (adc_set_callback cb ud)
  | Call_initialize => discard adc_initialize
  | Call_single_sample ch => discard (adc_single_sample ch)
  | Call_cont_sample ch f => discard (adc_cont_sample ch f)
  | Call_cancel_sampling => discard adc_cancel_sampling
  | Call_compute_frequency f => discard (adc_compute_frequency f)
  | Call_read_single_sample ch => discard (adc_read_single_sample ch)
  | Call_read_cont_sample ch f cb => discard (adc_read_cont_sample ch f cb)
  | Call_nearest_sampling_freq f => discard (adc_nearest_sampling_freq f)
  | Call_yield => yield
  end.

Fixpoint run (p : list api_call) : M unit :=
  match p with
  | [] => ret tt
  | c :: p' => call c ;; run p'
  end.

(** The process at start: the statics of adc.c are zero-initialised,
    nothing is registered.  [status] gives the kernel's answer to each
    system call by its rank, [q] the upcalls it will deliver. *)
Definition boot (status : nat -> Z) (q : list upcall) : world :=
  {| result := {| reading := 0; fired := false |};
     cont_cb := None;
     frequency := {| value := 0; computed := false |};
     registered := None;
     kernel_status := status;
     syscalls := 0;
     pending := q;
     trace := [] |}.

Definition sample (v : Z) : upcall :=
  {| callback_type := 0; up_channel := 0; up_value := v |}.

Definition always_ok : nat -> Z := fun _ => 0.

(** Modelled from the spec: the driver in the kernel takes the argument
    of the continuous-sample command apart; that side is not among the
    sources.  The low 8 bits carry the channel. *)
Definition decode_channel (arg : Z) : Z := Z.land arg 255.

(** Modelled from the spec: the remaining 24 bits of the argument carry
    the frequency. *)
Definition decode_frequency (arg : Z) : Z := Z.shiftr arg 8.

(** ** Reasoning about client computations *)

(** [c] keeps [P]: whatever the outcome, a world in [P] is left in [P]. *)
Definition preserves {A} (P : world -> Prop) (c : M A) : Prop :=
  forall w, P w -> P (snd (c w)).

(** No handler is installed and the handler calls so far are [l]. *)
Definition silent (l : list (handler * Z)) (w : world) : Prop :=
  cont_cb w = None /\ handler_calls w = l.

(** Does the kernel hand upcalls to [adc_cb]? *)
Definition dispatches_samples (w : world) : bool :=
  match registered w with
  | Some (Fn_adc_cb, _) => true
  | _ => false
  end.

(** Upcalls do not reach [adc_cb]; the handler reference is [c] and the
    handler calls so far are [l]. *)
Definition unhooked (c : option handler) (l : list (handler * Z))
  (w : world) : Prop :=
  cont_cb w = c /\ dispatches_samples w = false /\ handler_calls w = l.

(** Calls that install a handler. *)
Definition starts_stream (c : api_call) : bool :=
  match c with
  | Call_read_cont_sample _ _ (Some _) => true
  | _ => false
  end.


(** The world after a successful [start_continuous(0, 1000, h)] in a
    fresh process, the kernel holding the upcalls [q]; and the same after
    a cancellation. *)
Definition streaming (h : handler) (q : list upcall) : world :=
  snd (adc_read_cont_sample 0 1000 (Some h) (boot always_ok q)).

Definition cancelled (h : handler) (q : list upcall) : world :=
  snd (adc_cancel_sampling (streaming h q)).

(** A stream with handler 1 runs on channel 5; the kernel holds one of
    its samples, 99, and behind it the answer 512 to a single request
    for channel 0. *)
Definition stream_on_5 : world :=
  snd (adc_read_cont_sample 5 1000 (Some 1%nat)
         (boot always_ok
            [{| callback_type := 1; up_channel := 5; up_value := 99 |};
             {| callback_type := 0; up_channel := 0; up_value := 512 |}])).

(** ** The Hail test application (examples/tests/hail/main.c) *)

(** [(reading * 3300) / 4095] in [int]: the product overflows outside
    the range of [int], where C leaves the result undefined ([None]);
    the division truncates towards zero. *)
Definition millivolts (reading : Z) : option Z :=
  let product := reading * 3300 in
  if (- 2 ^ 31 <=? product) && (product <? 2 ^ 31)
  then Some (Z.quot product 4095)
  else None.

(** [(adc_read_single_sample(channel) * 3300) / 4095] *)
Definition read_millivolts (channel : Z) : M (option Z) :=
  r <- adc_read_single_sample channel ;;
  ret (millivolts r).

(** The block "Analog inputs: A0-A5" of [sample_sensors]: the values of
    [a0] to [a5], in this order. *)
Definition sample_sensors_analog : M (list (option Z)) :=
  a0 <- read_millivolts 0 ;;
  a1 <- read_millivolts 1 ;;
  a2 <- read_millivolts 3 ;;
  a3 <- read_millivolts 4 ;;
  a4 <- read_millivolts 5 ;;
  a5 <- read_millivolts 6 ;;
  ret [a0; a1; a2; a3; a4; a5].

(** The kernel accepts the next [k] system calls. *)
Definition accepts (k : nat) (w : world) : Prop :=
  forall n, (n < k)%nat -> 0 <= kernel_status w (n + syscalls w).

(** The channels of the single-sample commands issued, oldest first. *)
Fixpoint sampled_channels (t : list event) : list Z :=
  match t with
  | [] => []
  | Ev_command driver opcode arg _ :: t' =>
      if (driver =? DRIVER_NUM_ADC) && (opcode =? 2)
      then arg :: sampled_channels t'
      else sampled_channels t'
  | _ :: t' => sampled_channels t'
  end.

(** Was the cancel command issued? *)
Definition is_cancel (e : event) : bool :=
  match e with
  | Ev_command driver opcode _ _ =>
      (driver =? DRIVER_NUM_ADC) && (opcode =? 4)
  | _ => false
  end.

(** Since a world where the handler calls were [l0] and the kernel held
    [n0] upcalls: the calls made since are no more than the upcalls
    consumed. *)
Definition spent (l0 : list (handler * Z)) (n0 : nat) (w : world) : Prop :=
  exists l,
    handler_calls w = l0 ++ l /\
    (length l + length (pending w) <= n0)%nat.

(** * Properties *)

(** ** The monad *)

Lemma preserves_ret {A} P (a : A) : preserves P (ret a).
Proof. intros w Hw. exact Hw. Qed.

Lemma preserves_gets {A} P (f : world -> A) : preserves P (gets f).
Proof. intros w Hw. exact Hw. Qed.

Lemma preserves_bind {A B} P (c : M A) (k : A -> M B) :
  preserves P c -> (forall a, preserves P (k a)) -> preserves P (bind c k).
Proof.
  intros Hc Hk w Hw. unfold bind.
  specialize (Hc w Hw). destruct (c w) as [[a | ] w']; simpl in *.
  - apply Hk, Hc.
  - exact Hc.
Qed.

Lemma preserves_modify P (f : world -> world) :
  (forall w, P w -> P (f w)) -> preserves P (modify f).
Proof. intros Hf w Hw. apply Hf, Hw. Qed.

Lemma preserves_if {A} P (b : bool) (c1 c2 : M A) :
  preserves P c1 -> preserves P c2 -> preserves P (if b then c1 else c2).
Proof. destruct b; auto. Qed.

Lemma preserves_discard {A} P (c : M A) :
  preserves P c -> preserves P (discard c).
Proof.
  intros Hc. apply preserves_bind; [exact Hc | intros; apply preserves_ret].
Qed.

(** ** Upcalls *)

Lemma handler_calls_of_app t1 t2 :
  handler_calls_of (t1 ++ t2) = handler_calls_of t1 ++ handler_calls_of t2.
Proof.
  induction t1 as [| e t1 IH]; simpl; [reflexivity |].
  destruct e; simpl; rewrite IH; reflexivity.
Qed.

Lemma handler_calls_log e w :
  handler_calls (log e w) = handler_calls w ++ handler_calls_of [e].
Proof. unfold handler_calls. simpl. apply handler_calls_of_app. Qed.

Lemma deliver_frame u w :
  cont_cb (deliver u w) = cont_cb w /\
  registered (deliver u w) = registered w /\
  pending (deliver u w) = pending w /\
  syscalls (deliver u w) = syscalls w /\
  kernel_status (deliver u w) = kernel_status w.
Proof.
  unfold deliver. destruct (registered w) as [[cb ud] | ] eqn:E.
  - destruct cb, ud; simpl; unfold adc_cb; simpl;
      destruct (cont_cb w) eqn:Hc; simpl; rewrite ?E, ?Hc; repeat split.
  - rewrite E. repeat split.
Qed.

Lemma deliver_pending u w : pending (deliver u w) = pending w.
Proof. apply deliver_frame. Qed.

Lemma deliver_cont_cb u w : cont_cb (deliver u w) = cont_cb w.
Proof. apply deliver_frame. Qed.

Lemma deliver_registered u w : registered (deliver u w) = registered w.
Proof. apply deliver_frame. Qed.

Lemma deliver_silent u w :
  cont_cb w = None -> handler_calls (deliver u w) = handler_calls w.
Proof.
  intros Hc. unfold deliver.
  destruct (registered w) as [[cb ud] | ]; [| reflexivity].
  destruct cb, ud; simpl; unfold adc_cb; simpl; rewrite ?Hc; reflexivity.
Qed.

Lemma deliver_unhooked u w :
  dispatches_samples w = false ->
  handler_calls (deliver u w) = handler_calls w.
Proof.
  unfold dispatches_samples, deliver.
  destruct (registered w) as [[cb ud] | ]; [| reflexivity].
  destruct cb; [discriminate |]. intros _. destruct ud; reflexivity.
Qed.

(** [adc_cb] on the result slot with a handler installed. *)
Lemma deliver_streaming u w h :
  registered w = Some (Fn_adc_cb, Ref_result) -> cont_cb w = Some h ->
  deliver u w =
  log (Ev_handler h (up_value u) {| reading := up_value u; fired := true |})
      (set_result {| reading := up_value u; fired := true |} w).
Proof.
  intros Hr Hc. unfold deliver. rewrite Hr. simpl. unfold adc_cb. simpl.
  rewrite Hc. reflexivity.
Qed.

(** ** Suspension *)

(** The loop of [yield_for] is the source's [while (!*cond) yield();]. *)
Lemma yield_for_unfold cond w :
  yield_for cond w =
  if read_flag cond w then (Returned tt, w)
  else (yield ;; yield_for cond) w.
Proof.
  unfold yield_for at 1. unfold bind, yield.
  destruct (pending w) as [| u q] eqn:E; simpl.
  - reflexivity.
  - unfold yield_for. rewrite deliver_pending. reflexivity.
Qed.

Lemma yield_for_loop_invariant (P : world -> Prop) cond :
  (forall u q w, P w -> P (deliver u (set_pending q w))) ->
  forall q w, P w -> P (snd (yield_for_loop cond q w)).
Proof.
  intros Hstep q. induction q as [| u q IH]; intros w Hw; simpl.
  - destruct (read_flag cond w); exact Hw.
  - destruct (read_flag cond w); [exact Hw |].
    apply IH, Hstep, Hw.
Qed.

Lemma preserves_yield_for P cond :
  (forall u q w, P w -> P (deliver u (set_pending q w))) ->
  preserves P (yield_for cond).
Proof.
  intros Hstep w Hw. unfold yield_for.
  apply yield_for_loop_invariant; assumption.
Qed.

Lemma preserves_yield P :
  (forall u q w, P w -> P (deliver u (set_pending q w))) ->
  preserves P yield.
Proof.
  intros Hstep w Hw. unfold yield.
  destruct (pending w); simpl; [exact Hw | apply Hstep, Hw].
Qed.

(** The first upcall delivered to a routine registered with the slot of
    the awaited flag ends the suspension. *)
Lemma yield_for_first cond cb ud u q w :
  read_flag cond w = false ->
  registered w = Some (cb, ud) ->
  match cond, ud with
  | Flag_fired, Ref_result | Flag_computed, Ref_frequency => True
  | _, _ => False
  end ->
  pending w = u :: q ->
  yield_for cond w = (Returned tt, deliver u (set_pending q w)).
Proof.
  intros Hf Hr Hm Hp. unfold yield_for. rewrite Hp. simpl. rewrite Hf.
  assert (Hset : read_flag cond (deliver u (set_pending q w)) = true).
  { unfold deliver. simpl. rewrite Hr.
    destruct cond, ud, cb; try contradiction; simpl; unfold adc_cb; simpl;
      try destruct (cont_cb w); reflexivity. }
  destruct q; simpl; rewrite Hset; reflexivity.
Qed.

Lemma yield_for_starved cond w :
  read_flag cond w = false -> pending w = [] ->
  yield_for cond w = (Suspended, w).
Proof.
  intros Hf Hp. unfold yield_for. rewrite Hp. simpl. rewrite Hf. reflexivity.
Qed.

(** ** Invariants of applications *)

Create HintDb adc_keep.

#[local] Hint Resolve preserves_ret preserves_gets preserves_bind
  preserves_modify preserves_if preserves_discard preserves_yield_for
  preserves_yield : adc_keep.

Lemma silent_deliver l u q w :
  silent l w -> silent l (deliver u (set_pending q w)).
Proof.
  intros [Hc Hl]. split.
  - rewrite deliver_cont_cb. exact Hc.
  - rewrite deliver_silent by exact Hc. exact Hl.
Qed.

Lemma unhooked_deliver c l u q w :
  unhooked c l w -> unhooked c l (deliver u (set_pending q w)).
Proof.
  intros (Hc & Hd & Hl). repeat split.
  - rewrite deliver_cont_cb. exact Hc.
  - unfold dispatches_samples in *. rewrite deliver_registered. exact Hd.
  - rewrite deliver_unhooked by exact Hd. exact Hl.
Qed.

Lemma silent_subscribe l driver slot cb ud :
  preserves (silent l) (subscribe driver slot cb ud).
Proof.
  intros w [Hc Hl]. unfold subscribe. simpl.
  destruct (_ && _); split; simpl; try exact Hc;
    unfold handler_calls; simpl; rewrite handler_calls_of_app; simpl;
    rewrite app_nil_r; exact Hl.
Qed.

Lemma silent_command l driver opcode arg :
  preserves (silent l) (command driver opcode arg).
Proof.
  intros w [Hc Hl]. split; [exact Hc |].
  unfold command. simpl. rewrite handler_calls_log. simpl.
  rewrite app_nil_r. exact Hl.
Qed.

Lemma unhooked_subscribe c l driver slot ud :
  preserves (unhooked c l) (subscribe driver slot Fn_adc_freq_cb ud).
Proof.
  intros w (Hc & Hd & Hl). unfold subscribe. simpl.
  destruct (_ && _); repeat split; simpl;
    try exact Hc; try exact Hd; try reflexivity;
    unfold handler_calls; simpl; rewrite handler_calls_of_app; simpl;
    rewrite app_nil_r; exact Hl.
Qed.

Lemma unhooked_command c l driver opcode arg :
  preserves (unhooked c l) (command driver opcode arg).
Proof.
  intros w (Hc & Hd & Hl). repeat split; [exact Hc | exact Hd |].
  unfold command. simpl. rewrite handler_calls_log. simpl.
  rewrite app_nil_r. exact Hl.
Qed.

Lemma registered_deliver r u q w :
  registered w = r -> registered (deliver u (set_pending q w)) = r.
Proof. intros H. rewrite deliver_registered. exact H. Qed.

Lemma registered_command r driver opcode arg :
  preserves (fun w => registered w = r) (command driver opcode arg).
Proof. intros w H. exact H. Qed.

Lemma silent_store_flag l ud b w : silent l w -> silent l (store_flag ud b w).
Proof. intros H. destruct ud; exact H. Qed.

Lemma unhooked_store_flag c l ud b w :
  unhooked c l w -> unhooked c l (store_flag ud b w).
Proof. intros H. destruct ud; exact H. Qed.

Lemma silent_clear l w : silent l w -> silent l (set_cont_cb None w).
Proof. intros [_ Hl]. split; [reflexivity | exact Hl]. Qed.

#[local] Hint Resolve silent_deliver unhooked_deliver silent_subscribe
  silent_command unhooked_subscribe unhooked_command silent_store_flag
  unhooked_store_flag silent_clear registered_deliver registered_command
  : adc_keep.

Ltac keep :=
  repeat match goal with
    | |- forall _, _ => intro
    | |- preserves _ (bind _ _) => apply preserves_bind
    | |- preserves _ (if _ then _ else _) => apply preserves_if
    | |- preserves _ (discard _) => apply preserves_discard
    | |- preserves _ (modify _) => apply preserves_modify
    | |- preserves _ (yield_for _) => apply preserves_yield_for
    | |- preserves _ yield => apply preserves_yield
    | |- preserves _ (ret _) => apply preserves_ret
    | |- preserves _ (gets _) => apply preserves_gets
    end;
  eauto with adc_keep.

Lemma silent_read_single_sample l channel :
  preserves (silent l) (adc_read_single_sample channel).
Proof.
  unfold adc_read_single_sample, adc_set_callback, adc_single_sample.
  keep.
Qed.

Lemma silent_nearest_sampling_freq l requested :
  preserves (silent l) (adc_nearest_sampling_freq requested).
Proof.
  unfold adc_nearest_sampling_freq, adc_set_callback, adc_compute_frequency.
  keep.
Qed.


Lemma silent_call l c :
  starts_stream c = false -> preserves (silent l) (call c).
Proof.
  destruct c as [cb ud | | ch | ch f | | f | ch | ch f [h | ] | f | ];
    simpl; intros Hc; try discriminate;
    try apply preserves_discard;
    auto using silent_read_single_sample, silent_nearest_sampling_freq;
    unfold adc_set_callback, adc_initialize, adc_single_sample,
      adc_cont_sample, adc_cancel_sampling, adc_compute_frequency,
      adc_read_cont_sample, adc_set_callback;
    keep.
Qed.


Lemma silent_run l p :
  forallb (fun c => negb (starts_stream c)) p = true ->
  preserves (silent l) (run p).
Proof.
  induction p as [| c p IH]; simpl; intros Hp.
  - apply preserves_ret.
  - apply andb_true_iff in Hp. destruct Hp as [Hc Hp].
    apply negb_true_iff in Hc.
    apply preserves_bind; [apply silent_call, Hc | intros _; apply IH, Hp].
Qed.


(** ** Cancelling a stream *)

(** C1 (as the code has it).  [adc_cancel_sampling] only issues the
    cancel command (driver 7, opcode 4, argument 0) and returns the
    kernel's status, whatever it is.  It writes none of the statics of
    adc.c: the handler reference is what it was, and so is the
    registration with the kernel.  Hence a late sample upcall that
    reaches [adc_cb] after the cancellation calls the handler that is
    still installed. *)
Theorem adc_cancel_sampling_keeps_handler (w : world) :
  let s := kernel_status w (syscalls w) in
  adc_cancel_sampling w
  = (Returned s, log (Ev_command DRIVER_NUM_ADC 4 0 s) (tick w)) /\
  cont_cb (snd (adc_cancel_sampling w)) = cont_cb w /\
  result (snd (adc_cancel_sampling w)) = result w /\
  registered (snd (adc_cancel_sampling w)) = registered w /\
  forall h u,
    cont_cb w = Some h ->
    registered w = Some (Fn_adc_cb, Ref_result) ->
    handler_calls (deliver u (snd (adc_cancel_sampling w)))
    = handler_calls w ++ [(h, up_value u)].
Proof.
  simpl. repeat split. intros h u Hc Hr.
  rewrite (deliver_streaming u _ h) by assumption.
  rewrite handler_calls_log. unfold handler_calls. simpl.
  rewrite handler_calls_of_app. simpl. rewrite app_nil_r. reflexivity.
Qed.

(** The late callback of C1 on a stream started with handler 1. *)
Lemma adc_cancel_sampling_keeps_handler_witness :
  handler_calls (deliver (sample 7) (snd (adc_cancel_sampling (streaming 1%nat []))))
  = handler_calls (streaming 1%nat []) ++ [(1%nat, 7)].
Proof.
  apply (adc_cancel_sampling_keeps_handler (streaming 1%nat [])); reflexivity.
Defined.

(** C1 as stated fails: [start_continuous(0, 1000, h)], then
    [cancel_continuous], then one late callback delivering 7.  The
    handler reference is not cleared by the cancellation and the late
    callback calls the handler. *)
Lemma cancel_then_late_callback_calls_handler :
  cont_cb (streaming 1%nat [sample 7]) = Some 1%nat /\
  fst (adc_cancel_sampling (streaming 1%nat [sample 7])) = Returned 0 /\
  cont_cb (cancelled 1%nat [sample 7]) <> None /\
  handler_calls (cancelled 1%nat [sample 7]) = [] /\
  handler_calls (snd (yield (cancelled 1%nat [sample 7]))) = [(1%nat, 7)].
Proof. repeat split. discriminate. Qed.

(** ** The synchronous single read *)

(** The world in which [adc_read_single_sample] starts to wait, when both
    system calls were accepted. *)
Lemma read_single_sample_waits channel w :
  0 <= kernel_status w (syscalls w) ->
  0 <= kernel_status w (S (syscalls w)) ->
  exists w0,
    adc_read_single_sample channel w
    = (yield_for Flag_fired ;; gets (fun w' => reading (result w'))) w0 /\
    fired (result w0) = false /\
    reading (result w0) = reading (result w) /\
    cont_cb w0 = None /\
    registered w0 = Some (Fn_adc_cb, Ref_result) /\
    pending w0 = pending w /\
    frequency w0 = frequency w /\
    handler_calls w0 = handler_calls w.
Proof.
  intros H1 H2.
  assert (E1 : (0 <=? kernel_status w (syscalls w)) = true)
    by (apply Z.leb_le; exact H1).
  apply Z.ltb_ge in H1, H2.
  unfold adc_read_single_sample, adc_set_callback, adc_single_sample,
    subscribe, command, bind, modify. simpl.
  rewrite E1, H1. simpl. rewrite H2.
  eexists. split; [reflexivity |]. simpl. repeat split.
  unfold handler_calls. simpl. rewrite !handler_calls_of_app. simpl.
  rewrite !app_nil_r. reflexivity.
Qed.

Lemma deliver_trace_silent u w :
  cont_cb w = None ->
  trace (deliver u w) = trace w.
Proof.
  intros Hc. unfold deliver.
  destruct (registered w) as [[cb ud] | ]; [| reflexivity].
  destruct cb, ud; simpl; unfold adc_cb; simpl; rewrite ?Hc; reflexivity.
Qed.

(** The trace, the rank of the next system call and the handler
    reference at the start of a wait are those at its end. *)
Lemma silent_wait_keeps_trace {A} cond (f : world -> A) w :
  cont_cb w = None ->
  trace (snd ((yield_for cond ;; gets f) w)) = trace w /\
  syscalls (snd ((yield_for cond ;; gets f) w)) = syscalls w /\
  kernel_status (snd ((yield_for cond ;; gets f) w)) = kernel_status w /\
  registered (snd ((yield_for cond ;; gets f) w)) = registered w.
Proof.
  intros Hc.
  pose (P := fun w' : world =>
    cont_cb w' = None /\ trace w' = trace w /\ syscalls w' = syscalls w /\
    kernel_status w' = kernel_status w /\ registered w' = registered w).
  assert (HP : preserves P (yield_for cond ;; gets f)).
  { apply preserves_bind; [| intros; apply preserves_gets].
    apply preserves_yield_for. intros u q w' (A1 & A2 & A3 & A4 & A5).
    unfold P. destruct (deliver_frame u (set_pending q w'))
      as (B1 & B2 & _ & B4 & B5).
    rewrite B1, B2, B4, B5, deliver_trace_silent by exact A1.
    repeat split; assumption. }
  destruct (HP w) as (_ & A2 & A3 & A4 & A5); [unfold P; auto |]. auto.
Qed.

(** The world in which an accepted read starts to wait, with what the
    kernel has seen. *)
Lemma read_single_sample_waits_trace channel w :
  0 <= kernel_status w (syscalls w) ->
  0 <= kernel_status w (S (syscalls w)) ->
  exists w0,
    adc_read_single_sample channel w
    = (yield_for Flag_fired ;; gets (fun w' => reading (result w'))) w0 /\
    cont_cb w0 = None /\
    trace w0
    = trace w ++ [Ev_subscribe DRIVER_NUM_ADC 0 Fn_adc_cb Ref_result
                    (kernel_status w (syscalls w));
                  Ev_command DRIVER_NUM_ADC 2 channel
                    (kernel_status w (S (syscalls w)))] /\
    syscalls w0 = S (S (syscalls w)) /\
    kernel_status w0 = kernel_status w /\
    registered w0 = Some (Fn_adc_cb, Ref_result).
Proof.
  intros H1 H2.
  assert (E1 : (0 <=? kernel_status w (syscalls w)) = true)
    by (apply Z.leb_le; exact H1).
  apply Z.ltb_ge in H1, H2.
  unfold adc_read_single_sample, adc_set_callback, adc_single_sample,
    subscribe, command, bind, modify. simpl.
  rewrite E1, H1. simpl. rewrite H2.
  eexists. split; [reflexivity |]. simpl. repeat split.
  rewrite <- app_assoc. reflexivity.
Qed.

(** The system calls [adc_read_single_sample] makes, in every case. *)
Lemma read_single_sample_syscalls channel w :
  trace (snd (adc_read_single_sample channel w))
  = trace w
    ++ Ev_subscribe DRIVER_NUM_ADC 0 Fn_adc_cb Ref_result
         (kernel_status w (syscalls w))
       :: (if kernel_status w (syscalls w) <? 0 then []
           else [Ev_command DRIVER_NUM_ADC 2 channel
                   (kernel_status w (S (syscalls w)))]) /\
  syscalls (snd (adc_read_single_sample channel w))
  = (if kernel_status w (syscalls w) <? 0 then S (syscalls w)
     else S (S (syscalls w))) /\
  kernel_status (snd (adc_read_single_sample channel w)) = kernel_status w /\
  registered (snd (adc_read_single_sample channel w))
  = (if kernel_status w (syscalls w) <? 0 then registered w
     else Some (Fn_adc_cb, Ref_result)).
Proof.
  destruct (Z.ltb_spec (kernel_status w (syscalls w)) 0) as [H1 | H1].
  - assert (E1 : (0 <=? kernel_status w (syscalls w)) = false)
      by (apply Z.leb_gt; exact H1).
    apply Z.ltb_lt in H1.
    unfold adc_read_single_sample, adc_set_callback, subscribe, bind,
      modify. simpl. rewrite E1, H1. simpl. auto.
  - destruct (Z.ltb_spec (kernel_status w (S (syscalls w))) 0) as [H2 | H2].
    + apply Z.leb_le in H1 as E1. apply Z.ltb_ge in H1. apply Z.ltb_lt in H2.
      unfold adc_read_single_sample, adc_set_callback, adc_single_sample,
        subscribe, command, bind, modify. simpl.
      rewrite E1, H1. simpl. rewrite H2. simpl.
      repeat split. rewrite <- app_assoc. reflexivity.
    + destruct (read_single_sample_waits_trace channel w H1 H2)
        as (w0 & -> & Hc & Ht & Hs & Hk & Hr).
      destruct (silent_wait_keeps_trace Flag_fired
                  (fun w' => reading (result w')) w0 Hc)
        as (A & B & C & D).
      rewrite A, B, C, D, Ht, Hs, Hk, Hr. auto.
Qed.

(** What the read returns, from the upcalls the kernel holds. *)
Lemma read_single_sample_outcome channel w :
  0 <= kernel_status w (syscalls w) ->
  0 <= kernel_status w (S (syscalls w)) ->
  fst (adc_read_single_sample channel w)
  = match pending w with
    | [] => Suspended
    | u :: _ => Returned (up_value u)
    end /\
  result (snd (adc_read_single_sample channel w))
  = match pending w with
    | [] => {| reading := reading (result w); fired := false |}
    | u :: _ => {| reading := up_value u; fired := true |}
    end /\
  pending (snd (adc_read_single_sample channel w)) = tl (pending w) /\
  frequency (snd (adc_read_single_sample channel w)) = frequency w /\
  handler_calls (snd (adc_read_single_sample channel w)) = handler_calls w.
Proof.
  intros H1 H2.
  destruct (read_single_sample_waits channel w H1 H2)
    as (w0 & -> & Hf & Hv & Hc & Hr & Hp & Hq & Hl).
  rewrite <- Hp, <- Hv. unfold bind.
  destruct (pending w0) as [| u q] eqn:E.
  - rewrite yield_for_starved by assumption. simpl.
    repeat split; try assumption. rewrite <- Hf.
    destruct (result w0); reflexivity.
  - rewrite (yield_for_first Flag_fired Fn_adc_cb Ref_result u q)
      by (simpl; auto).
    unfold deliver. simpl. rewrite Hr. simpl. unfold adc_cb. simpl.
    rewrite Hc. simpl. auto.
Qed.

(** C2 (as the code has it).  When the kernel accepts the subscription
    and the single-sample command for the channel, both of which are
    issued, [adc_read_single_sample] waits: with nothing delivered it
    stays suspended with the ready flag false; the first upcall
    delivered sets the flag and the call returns exactly the value that
    upcall carries, whatever its type and whatever its channel, be it a
    sample of a stream the kernel is still running.  What the result
    slot held before and what the frequency slot holds have no influence
    on the value returned; the frequency slot is not written and no user
    handler runs. *)
Theorem adc_read_single_sample_returns_delivered (channel : Z) (w : world) :
  0 <= kernel_status w (syscalls w) ->
  0 <= kernel_status w (S (syscalls w)) ->
  match pending w with
  | [] =>
      fst (adc_read_single_sample channel w) = Suspended /\
      fired (result (snd (adc_read_single_sample channel w))) = false
  | u :: q =>
      fst (adc_read_single_sample channel w) = Returned (up_value u) /\
      result (snd (adc_read_single_sample channel w))
      = {| reading := up_value u; fired := true |} /\
      pending (snd (adc_read_single_sample channel w)) = q
  end /\
  (forall ct ch v q,
     pending w
     = {| callback_type := ct; up_channel := ch; up_value := v |} :: q ->
     fst (adc_read_single_sample channel w) = Returned v) /\
  (forall r f c,
     fst (adc_read_single_sample channel
            (set_result r (set_frequency f (set_cont_cb c w))))
     = fst (adc_read_single_sample channel w)) /\
  frequency (snd (adc_read_single_sample channel w)) = frequency w /\
  handler_calls (snd (adc_read_single_sample channel w)) = handler_calls w /\
  trace (snd (adc_read_single_sample channel w))
  = trace w ++ [Ev_subscribe DRIVER_NUM_ADC 0 Fn_adc_cb Ref_result
                  (kernel_status w (syscalls w));
                Ev_command DRIVER_NUM_ADC 2 channel
                  (kernel_status w (S (syscalls w)))].
Proof.
  intros H1 H2.
  destruct (read_single_sample_outcome channel w H1 H2)
    as (Ho & Hr & Hp & Hf & Hl).
  destruct (read_single_sample_syscalls channel w) as (Ht & _).
  apply Z.ltb_ge in H1 as E1. rewrite E1 in Ht.
  repeat split; try assumption.
  - rewrite Ho, Hr, Hp. destruct (pending w); simpl; auto.
  - intros ct ch v q Hq. rewrite Ho, Hq. reflexivity.
  - intros r f c.
    destruct (read_single_sample_outcome channel
                (set_result r (set_frequency f (set_cont_cb c w))) H1 H2)
      as (Ho' & _).
    rewrite Ho', Ho. reflexivity.
Qed.

(** [read_single(0)] with a callback delivering 512 returns 512. *)
Lemma adc_read_single_sample_returns_delivered_witness :
  fst (adc_read_single_sample 0 (boot always_ok [sample 512])) = Returned 512.
Proof.
  assert (H : 0 <= 0) by lia.
  exact (proj1 (proj1 (adc_read_single_sample_returns_delivered 0
                         (boot always_ok [sample 512]) H H))).
Defined.

(** C2 as stated fails: a stream runs on channel 5 and the kernel has
    queued one of its samples, 99, ahead of the answer 512 to the
    request for channel 0.  [read_single(0)] asks for channel 0 and
    returns 99, the sample of the stream; its own answer stays
    queued. *)
Lemma read_single_returns_stream_sample :
  sampled_channels (trace (snd (adc_read_single_sample 0 stream_on_5)))
  = [0] /\
  fst (adc_read_single_sample 0 stream_on_5) = Returned 99 /\
  fst (adc_read_single_sample 0 stream_on_5) <> Returned 512 /\
  pending (snd (adc_read_single_sample 0 stream_on_5))
  = [{| callback_type := 0; up_channel := 0; up_value := 512 |}].
Proof. repeat split. discriminate. Qed.

(** C3.  [adc_read_single_sample] clears the handler reference before
    anything else: it behaves as on a world where the reference is
    already null.  So no handler runs during the call, whatever its
    outcome, the reference is null after it, and whatever the
    application does next (system calls, further reads, negotiations,
    any number of upcalls), the handler of the former stream is not
    called again until a stream is started anew. *)
Theorem adc_read_single_sample_stops_stream
  (channel : Z) (p : list api_call) (w : world) :
  forallb (fun c => negb (starts_stream c)) p = true ->
  adc_read_single_sample channel w
  = adc_read_single_sample channel (set_cont_cb None w) /\
  cont_cb (snd (adc_read_single_sample channel w)) = None /\
  handler_calls (snd (adc_read_single_sample channel w)) = handler_calls w /\
  cont_cb (snd (run p (snd (adc_read_single_sample channel w)))) = None /\
  handler_calls (snd (run p (snd (adc_read_single_sample channel w))))
  = handler_calls w.
Proof.
  intros Hp.
  assert (H0 : adc_read_single_sample channel w
               = adc_read_single_sample channel (set_cont_cb None w))
    by reflexivity.
  assert (H1 : silent (handler_calls w)
                 (snd (adc_read_single_sample channel w))).
  { rewrite H0. apply silent_read_single_sample. split; reflexivity. }
  assert (H2 := silent_run (handler_calls w) p Hp _ H1).
  destruct H1, H2. auto.
Qed.

(** A stream with handler 1 is running; the application reads channel 2
    once, cancels, negotiates a frequency and lets three more upcalls
    in: the handler is not called. *)
Lemma adc_read_single_sample_stops_stream_witness :
  handler_calls
    (snd (run [Call_cancel_sampling; Call_nearest_sampling_freq 5000;
               Call_set_callback Fn_adc_cb Ref_result;
               Call_yield; Call_yield; Call_yield]
            (snd (adc_read_single_sample 2
                    (streaming 1%nat
                       [sample 10; sample 20; sample 30; sample 40;
                        sample 50])))))
  = handler_calls
      (streaming 1%nat
         [sample 10; sample 20; sample 30; sample 40; sample 50]).
Proof.
  apply (adc_read_single_sample_stops_stream 2
           [Call_cancel_sampling; Call_nearest_sampling_freq 5000;
            Call_set_callback Fn_adc_cb Ref_result;
            Call_yield; Call_yield; Call_yield]
           (streaming 1%nat
              [sample 10; sample 20; sample 30; sample 40; sample 50])).
  reflexivity.
Defined.

(** C7.  A negative status of the subscription, or of the single-sample
    command after an accepted subscription, is returned as it is, at
    once: no upcall is awaited or consumed, and the ready flag of the
    result slot is false. *)
Theorem adc_read_single_sample_error (channel : Z) (w : world) :
  (kernel_status w (syscalls w) < 0 ->
   fst (adc_read_single_sample channel w)
   = Returned (kernel_status w (syscalls w)) /\
   syscalls (snd (adc_read_single_sample channel w)) = S (syscalls w)) /\
  (0 <= kernel_status w (syscalls w) ->
   kernel_status w (S (syscalls w)) < 0 ->
   fst (adc_read_single_sample channel w)
   = Returned (kernel_status w (S (syscalls w)))) /\
  (kernel_status w (syscalls w) < 0 \/
   kernel_status w (S (syscalls w)) < 0 ->
   fired (result (snd (adc_read_single_sample channel w))) = false /\
   reading (result (snd (adc_read_single_sample channel w)))
   = reading (result w) /\
   pending (snd (adc_read_single_sample channel w)) = pending w /\
   handler_calls (snd (adc_read_single_sample channel w)) = handler_calls w).
Proof.
  unfold adc_read_single_sample, adc_set_callback, adc_single_sample,
    subscribe, command, bind, modify, handler_calls. simpl.
  destruct (Z.ltb_spec (kernel_status w (syscalls w)) 0) as [H1 | H1].
  - assert (E1 : (0 <=? kernel_status w (syscalls w)) = false)
      by (apply Z.leb_gt; exact H1).
    rewrite E1. simpl. repeat split; try lia.
    rewrite handler_calls_of_app. simpl. apply app_nil_r.
  - apply Z.leb_le in H1 as E1. rewrite E1. simpl.
    destruct (Z.ltb_spec (kernel_status w (S (syscalls w))) 0) as [H2 | H2];
      simpl; repeat split; try lia;
      rewrite !handler_calls_of_app; simpl; rewrite !app_nil_r; reflexivity.
Qed.

(** The subscription is refused with -1. *)
Lemma adc_read_single_sample_error_witness :
  fst (adc_read_single_sample 0 (boot (fun _ => -1) [sample 512]))
  = Returned (-1) /\
  fired (result (snd (adc_read_single_sample 0
                        (boot (fun _ => -1) [sample 512])))) = false /\
  pending (snd (adc_read_single_sample 0 (boot (fun _ => -1) [sample 512])))
  = [sample 512].
Proof.
  assert (H : -1 < 0) by lia.
  pose proof (adc_read_single_sample_error 0
                (boot (fun _ => -1) [sample 512])) as (A & _ & C).
  split; [exact (proj1 (A H)) |].
  split; [exact (proj1 (C (or_introl H))) |].
  exact (proj1 (proj2 (proj2 (C (or_introl H))))).
Defined.

(** ** Continuous sampling *)

(** C6.  [adc_cb] first writes the reading and the ready flag into the
    result slot and only then calls the installed handler, if any, with
    that reading: the handler already sees the updated slot.  Sample
    upcalls delivered one after the other to a running stream call the
    handler once each, with their values, in the order of delivery. *)
Theorem adc_cb_updates_then_calls_handler (w : world) (h : handler) :
  registered w = Some (Fn_adc_cb, Ref_result) ->
  cont_cb w = Some h ->
  (forall ct ch v,
     adc_cb ct ch v Ref_result w
     = log (Ev_handler h v {| reading := v; fired := true |})
         (set_result {| reading := v; fired := true |} w)) /\
  (forall ct ch v,
     adc_cb ct ch v Ref_result (set_cont_cb None w)
     = set_result {| reading := v; fired := true |} (set_cont_cb None w)) /\
  (forall us q,
     pending w = us ++ q ->
     fst (run (repeat Call_yield (length us)) w) = Returned tt /\
     pending (snd (run (repeat Call_yield (length us)) w)) = q /\
     handler_calls (snd (run (repeat Call_yield (length us)) w))
     = handler_calls w ++ map (fun u => (h, up_value u)) us).
Proof.
  intros Hr Hc. split; [| split].
  - intros ct ch v. unfold adc_cb. simpl. rewrite Hc. reflexivity.
  - reflexivity.
  - intros us. revert w Hr Hc.
    induction us as [| u us IH]; intros w Hr Hc q Hp; simpl.
    + rewrite app_nil_r. auto.
    + unfold bind, yield. rewrite Hp. simpl.
      assert (Hr' : registered (set_pending (us ++ q) w)
                    = Some (Fn_adc_cb, Ref_result)) by exact Hr.
      assert (Hc' : cont_cb (set_pending (us ++ q) w) = Some h) by exact Hc.
      rewrite (deliver_streaming u _ h Hr' Hc').
      match goal with
      | |- context [run _ ?w1] =>
          destruct (IH w1 Hr Hc q eq_refl) as (-> & -> & ->)
      end.
      repeat split. rewrite handler_calls_log. simpl.
      rewrite <- app_assoc. reflexivity.
Qed.

(** [start_continuous(0, 1000, handler)], then three callbacks with the
    values 1, 2 and 3. *)
Lemma adc_cb_updates_then_calls_handler_witness :
  handler_calls
    (snd (run [Call_yield; Call_yield; Call_yield]
            (streaming 5%nat [sample 1; sample 2; sample 3])))
  = [(5%nat, 1); (5%nat, 2); (5%nat, 3)].
Proof.
  exact (proj2 (proj2
    (proj2 (proj2 (adc_cb_updates_then_calls_handler
                     (streaming 5%nat [sample 1; sample 2; sample 3]) 5%nat
                     eq_refl eq_refl))
       [sample 1; sample 2; sample 3] [] eq_refl))).
Defined.

(** C10.  [adc_read_cont_sample] stores the new handler before the
    subscription is made and never takes it back: whether the
    subscription is refused, or the continuous-sample command after it,
    the status is returned and the new handler is the one installed,
    whatever handler was there before. *)
Theorem adc_read_cont_sample_no_rollback
  (channel frequency : Z) (cb : option handler) (w : world) :
  cont_cb (snd (adc_read_cont_sample channel frequency cb w)) = cb /\
  (kernel_status w (syscalls w) < 0 ->
   fst (adc_read_cont_sample channel frequency cb w)
   = Returned (kernel_status w (syscalls w)) /\
   registered (snd (adc_read_cont_sample channel frequency cb w))
   = registered w /\
   trace (snd (adc_read_cont_sample channel frequency cb w))
   = trace w ++ [Ev_subscribe DRIVER_NUM_ADC 0 Fn_adc_cb Ref_result
                   (kernel_status w (syscalls w))]) /\
  (0 <= kernel_status w (syscalls w) ->
   fst (adc_read_cont_sample channel frequency cb w)
   = Returned (kernel_status w (S (syscalls w))) /\
   registered (snd (adc_read_cont_sample channel frequency cb w))
   = Some (Fn_adc_cb, Ref_result) /\
   trace (snd (adc_read_cont_sample channel frequency cb w))
   = trace w ++ [Ev_subscribe DRIVER_NUM_ADC 0 Fn_adc_cb Ref_result
                   (kernel_status w (syscalls w));
                 Ev_command DRIVER_NUM_ADC 3 (chan_freq channel frequency)
                   (kernel_status w (S (syscalls w)))]).
Proof.
  unfold adc_read_cont_sample, adc_set_callback, adc_cont_sample,
    subscribe, command, bind, modify. simpl.
  destruct (Z.ltb_spec (kernel_status w (syscalls w)) 0) as [H1 | H1].
  - assert (E1 : (0 <=? kernel_status w (syscalls w)) = false)
      by (apply Z.leb_gt; exact H1).
    rewrite E1. simpl. repeat split; lia.
  - apply Z.leb_le in H1 as E1. rewrite E1. simpl.
    repeat split; try lia. rewrite <- app_assoc. reflexivity.
Qed.

(** A stream with handler 1 runs; starting one with handler 2 fails at
    the subscription (-1) and at the command (-2): handler 2 stays. *)
Lemma adc_read_cont_sample_no_rollback_witness :
  (fst (adc_read_cont_sample 0 1000 (Some 2%nat)
          (set_cont_cb (Some 1%nat) (boot (fun _ => -1) []))) = Returned (-1) /\
   cont_cb (snd (adc_read_cont_sample 0 1000 (Some 2%nat)
                   (set_cont_cb (Some 1%nat) (boot (fun _ => -1) []))))
   = Some 2%nat) /\
  (fst (adc_read_cont_sample 0 1000 (Some 2%nat)
          (set_cont_cb (Some 1%nat)
             (boot (fun n => match n with O => 0 | _ => -2 end) [])))
   = Returned (-2) /\
   cont_cb (snd (adc_read_cont_sample 0 1000 (Some 2%nat)
                   (set_cont_cb (Some 1%nat)
                      (boot (fun n => match n with O => 0 | _ => -2 end) []))))
   = Some 2%nat).
Proof.
  assert (Hneg : -1 < 0) by lia.
  assert (Hpos : 0 <= 0) by lia.
  pose proof (adc_read_cont_sample_no_rollback 0 1000 (Some 2%nat)
                (set_cont_cb (Some 1%nat) (boot (fun _ => -1) [])))
    as (A1 & B1 & _).
  pose proof (adc_read_cont_sample_no_rollback 0 1000 (Some 2%nat)
                (set_cont_cb (Some 1%nat)
                   (boot (fun n => match n with O => 0 | _ => -2 end) [])))
    as (A2 & _ & C2).
  split; split.
  - exact (proj1 (B1 Hneg)).
  - exact A1.
  - exact (proj1 (C2 Hpos)).
  - exact A2.
Defined.

(** ** Frequency negotiation

    The lemmas of this section are about the negotiation as modelled
    from the spec. *)

(** The world in which [adc_nearest_sampling_freq] starts to wait, when
    both system calls were accepted. *)
Lemma nearest_sampling_freq_waits requested w :
  0 <= kernel_status w (syscalls w) ->
  0 <= kernel_status w (S (syscalls w)) ->
  exists w0,
    adc_nearest_sampling_freq requested w
    = (yield_for Flag_computed ;;
       gets (fun w' => to_uint32 (value (frequency w')))) w0 /\
    computed (frequency w0) = false /\
    registered w0 = Some (Fn_adc_freq_cb, Ref_frequency) /\
    pending w0 = pending w /\
    result w0 = result w /\
    cont_cb w0 = cont_cb w /\
    trace w0
    = trace w ++ [Ev_subscribe DRIVER_NUM_ADC 0 Fn_adc_freq_cb Ref_frequency
                    (kernel_status w (syscalls w));
                  Ev_command DRIVER_NUM_ADC 5 requested
                    (kernel_status w (S (syscalls w)))].
Proof.
  intros H1 H2.
  assert (E1 : (0 <=? kernel_status w (syscalls w)) = true)
    by (apply Z.leb_le; exact H1).
  apply Z.ltb_ge in H1, H2.
  unfold adc_nearest_sampling_freq, adc_set_callback, adc_compute_frequency,
    subscribe, command, bind, modify. simpl.
  rewrite E1, H1. simpl. rewrite H2.
  eexists. split; [reflexivity |]. simpl. repeat split.
  rewrite <- app_assoc. reflexivity.
Qed.

(** The negotiation of the spec resets the computed flag, registers
    [adc_freq_cb] with the frequency slot as its context, issues the
    compute-frequency command (opcode 5) with the requested frequency
    and, both being accepted, waits: with nothing delivered it stays
    suspended with the flag false; the first upcall delivered sets the
    flag and its value is returned, as a [uint32_t].  The result slot
    and the handler reference are not written. *)
Theorem adc_nearest_sampling_freq_returns_achieved
  (requested : Z) (w : world) :
  0 <= kernel_status w (syscalls w) ->
  0 <= kernel_status w (S (syscalls w)) ->
  match pending w with
  | [] =>
      fst (adc_nearest_sampling_freq requested w) = Suspended /\
      computed (frequency (snd (adc_nearest_sampling_freq requested w)))
      = false
  | u :: q =>
      fst (adc_nearest_sampling_freq requested w)
      = Returned (to_uint32 (up_value u)) /\
      (uint32_range (up_value u) ->
       fst (adc_nearest_sampling_freq requested w) = Returned (up_value u)) /\
      frequency (snd (adc_nearest_sampling_freq requested w))
      = {| value := up_value u; computed := true |} /\
      pending (snd (adc_nearest_sampling_freq requested w)) = q
  end /\
  trace (snd (adc_nearest_sampling_freq requested w))
  = trace w ++ [Ev_subscribe DRIVER_NUM_ADC 0 Fn_adc_freq_cb Ref_frequency
                  (kernel_status w (syscalls w));
                Ev_command DRIVER_NUM_ADC 5 requested
                  (kernel_status w (S (syscalls w)))] /\
  result (snd (adc_nearest_sampling_freq requested w)) = result w.
Proof.
  intros H1 H2.
  destruct (nearest_sampling_freq_waits requested w H1 H2)
    as (w0 & -> & Hf & Hr & Hp & Hq & Hc & Ht).
  rewrite <- Hp, <- Ht, <- Hq. unfold bind.
  destruct (pending w0) as [| u q] eqn:E.
  - rewrite yield_for_starved by assumption. simpl. auto.
  - rewrite (yield_for_first Flag_computed Fn_adc_freq_cb Ref_frequency u q)
      by (simpl; auto).
    unfold deliver. simpl. rewrite Hr. simpl.
    repeat split. intros Hu. unfold to_uint32.
    rewrite Z.mod_small by exact Hu. reflexivity.
Qed.

(** Requesting 5000 with a callback delivering 4096 returns 4096. *)
Lemma adc_nearest_sampling_freq_returns_achieved_witness :
  fst (adc_nearest_sampling_freq 5000 (boot always_ok [sample 4096]))
  = Returned 4096.
Proof.
  assert (H : 0 <= 0) by lia.
  exact (proj1 (proj1 (adc_nearest_sampling_freq_returns_achieved 5000
                         (boot always_ok [sample 4096]) H H))).
Defined.






(** When the subscription, or the compute-frequency command after it,
    is refused with the negative status [s], the negotiation returns at
    once, without waiting for or consuming an upcall; its result type
    being [uint32_t] (line 98), what [return err] (lines 105 and 108)
    hands to the caller is [s + 2 ^ 32], a value that is not
    negative. *)
Theorem adc_nearest_sampling_freq_error_wraps
  (requested s : Z) (w : world) :
  int_range s -> s < 0 ->
  kernel_status w (syscalls w) = s \/
  (0 <= kernel_status w (syscalls w) /\
   kernel_status w (S (syscalls w)) = s) ->
  fst (adc_nearest_sampling_freq requested w) = Returned (s + 2 ^ 32) /\
  fst (adc_nearest_sampling_freq requested w) <> Returned s /\
  2 ^ 31 <= s + 2 ^ 32 < 2 ^ 32 /\
  pending (snd (adc_nearest_sampling_freq requested w)) = pending w /\
  computed (frequency (snd (adc_nearest_sampling_freq requested w))) = false.
Proof.
  intros Hs Hneg Hk. unfold int_range in Hs.
  assert (Hw : to_uint32 s = s + 2 ^ 32).
  { unfold to_uint32. symmetry. apply (Z.mod_unique _ _ (-1)); lia. }
  assert (Hfst : fst (adc_nearest_sampling_freq requested w)
                 = Returned (s + 2 ^ 32) /\
                 pending (snd (adc_nearest_sampling_freq requested w))
                 = pending w /\
                 computed (frequency (snd (adc_nearest_sampling_freq
                                             requested w))) = false).
  { unfold adc_nearest_sampling_freq, adc_set_callback,
      adc_compute_frequency, subscribe, command, bind, modify. simpl.
    destruct Hk as [H1 | [H1 H2]].
    - assert (E1 : (0 <=? kernel_status w (syscalls w)) = false)
        by (apply Z.leb_gt; lia).
      assert (E2 : (kernel_status w (syscalls w) <? 0) = true)
        by (apply Z.ltb_lt; lia).
      rewrite E1, E2. simpl. rewrite H1, Hw. auto.
    - assert (E1 : (0 <=? kernel_status w (syscalls w)) = true)
        by (apply Z.leb_le; lia).
      assert (E2 : (kernel_status w (syscalls w) <? 0) = false)
        by (apply Z.ltb_ge; lia).
      assert (E3 : (kernel_status w (S (syscalls w)) <? 0) = true)
        by (apply Z.ltb_lt; lia).
      rewrite E1, E2. simpl. rewrite E3. simpl. rewrite H2, Hw. auto. }
  destruct Hfst as (A & B & C). rewrite A.
  repeat split; try assumption; try lia.
  intros E. injection E. lia.
Qed.

(** The subscription of a negotiation for 5000 is refused with -1: the
    caller receives 4294967295. *)
Lemma adc_nearest_sampling_freq_error_wraps_witness :
  fst (adc_nearest_sampling_freq 5000 (boot (fun _ => -1) [sample 4096]))
  = Returned 4294967295 /\
  fst (adc_nearest_sampling_freq 5000 (boot (fun _ => -1) [sample 4096]))
  <> Returned (-1).
Proof.
  assert (Hr : int_range (-1)) by (unfold int_range; lia).
  assert (Hn : -1 < 0) by lia.
  pose proof (adc_nearest_sampling_freq_error_wraps 5000 (-1)
                (boot (fun _ => -1) [sample 4096]) Hr Hn
                (or_introl eq_refl)) as (A & B & _).
  exact (conj A B).
Defined.

(** ** The argument of the continuous-sample command *)

Lemma shifted_land_channel x c :
  uint8_range c -> Z.land (x * 2 ^ 8) c = 0.
Proof.
  intros Hc. unfold uint8_range in Hc. apply Z.bits_inj'. intros n Hn.
  rewrite Z.land_spec, Z.bits_0.
  destruct (Z.lt_ge_cases n 8) as [Hlt | Hge].
  - rewrite Z.mul_pow2_bits_low by lia. reflexivity.
  - replace c with (c mod 2 ^ 8) by (apply Z.mod_small; lia).
    rewrite Z.mod_pow2_bits_high by lia. apply andb_false_r.
Qed.

(** The packed argument as a sum: the low 24 bits of the frequency moved
    up by 8 bits, plus the channel. *)
Lemma chan_freq_sum c f :
  uint8_range c -> chan_freq c f = (f mod 2 ^ 24) * 2 ^ 8 + c.
Proof.
  intros Hc. unfold chan_freq, to_uint32.
  rewrite Z.shiftl_mul_pow2 by lia.
  change (2 ^ 32) with (2 ^ 24 * 2 ^ 8).
  rewrite Z.mul_mod_distr_r by lia.
  pose proof (Z.add_lor_land (f mod 2 ^ 24 * 2 ^ 8) c) as H.
  rewrite shifted_land_channel in H by assumption. lia.
Qed.

Lemma chan_freq_truncates c f :
  chan_freq c (f mod 2 ^ 24) = chan_freq c f.
Proof.
  unfold chan_freq, to_uint32. f_equal.
  rewrite !Z.shiftl_mul_pow2 by lia.
  change (2 ^ 32) with (2 ^ 24 * 2 ^ 8).
  rewrite !Z.mul_mod_distr_r by lia.
  rewrite Z.mod_mod by lia. reflexivity.
Qed.

(** C4.  [adc_cont_sample] issues command 3 with the channel in the low
    8 bits of the argument and the frequency in the 24 bits above.  For
    a channel of 8 bits the channel is read back exactly; the frequency
    read back is the low 24 bits of the one given, so a frequency of at
    most 24 bits is read back exactly and a wider one loses its
    high-order bits only; packing the truncated frequency again gives
    the same argument. *)
Theorem chan_freq_round_trip (channel frequency : Z) :
  uint8_range channel -> uint32_range frequency ->
  (forall w,
     adc_cont_sample channel frequency w
     = command DRIVER_NUM_ADC 3 (chan_freq channel frequency) w) /\
  uint32_range (chan_freq channel frequency) /\
  decode_channel (chan_freq channel frequency) = channel /\
  decode_frequency (chan_freq channel frequency) = frequency mod 2 ^ 24 /\
  (frequency < 2 ^ 24 ->
   decode_frequency (chan_freq channel frequency) = frequency) /\
  chan_freq channel (frequency mod 2 ^ 24) = chan_freq channel frequency /\
  chan_freq (decode_channel (chan_freq channel frequency))
    (decode_frequency (chan_freq channel frequency))
  = chan_freq channel frequency.
Proof.
  intros Hc Hf.
  assert (Hm : 0 <= frequency mod 2 ^ 24 < 2 ^ 24)
    by (apply Z.mod_pos_bound; lia).
  assert (Hch : decode_channel (chan_freq channel frequency) = channel).
  { unfold decode_channel. rewrite chan_freq_sum by assumption.
    change 255 with (Z.ones 8). rewrite Z.land_ones by lia.
    rewrite Z.add_comm, Z.mod_add by lia.
    apply Z.mod_small. exact Hc. }
  assert (Hfr : decode_frequency (chan_freq channel frequency)
                = frequency mod 2 ^ 24).
  { unfold decode_frequency. rewrite chan_freq_sum by assumption.
    rewrite Z.shiftr_div_pow2 by lia.
    rewrite Z.add_comm, Z.div_add by lia.
    rewrite Z.div_small by exact Hc. reflexivity. }
  split; [reflexivity |].
  split; [rewrite chan_freq_sum by assumption;
          unfold uint32_range, uint8_range in *; lia |].
  split; [exact Hch |].
  split; [exact Hfr |].
  split; [intros Hlt; rewrite Hfr; apply Z.mod_small;
          unfold uint32_range in Hf; lia |].
  split; [apply chan_freq_truncates |].
  rewrite Hch, Hfr. apply chan_freq_truncates.
Qed.

(** Channel 5 at 1000 Hz, and at a frequency of 25 bits. *)
Lemma chan_freq_round_trip_witness :
  (decode_channel (chan_freq 5 1000) = 5 /\
   decode_frequency (chan_freq 5 1000) = 1000) /\
  (decode_frequency (chan_freq 5 (2 ^ 24 + 1000)) = 1000 /\
   chan_freq 5 1000 = chan_freq 5 (2 ^ 24 + 1000)).
Proof.
  assert (Hc : uint8_range 5) by (unfold uint8_range; lia).
  assert (H1 : uint32_range 1000) by (unfold uint32_range; lia).
  assert (H2 : uint32_range (2 ^ 24 + 1000)) by (unfold uint32_range; lia).
  pose proof (chan_freq_round_trip 5 1000 Hc H1) as (_ & _ & A & B & _).
  pose proof (chan_freq_round_trip 5 (2 ^ 24 + 1000) Hc H2)
    as (_ & _ & _ & C & _ & D & _).
  split; split.
  - exact A.
  - exact B.
  - exact C.
  - exact D.
Defined.

(** * Further properties of the client *)

(** ** Upcalls reaching [adc_cb] *)

Lemma last_cons_default {A} (l : list A) (a d : A) :
  last (a :: l) d = last l a.
Proof.
  revert a d. induction l as [| b l IH]; intros a d; [reflexivity |].
  change (last (a :: b :: l) d) with (last (b :: l) d).
  rewrite !IH. reflexivity.
Qed.

(** Upcalls let in one by one while [adc_cb] is registered on the result
    slot: each updates the slot and calls the handler installed, if
    any. *)
Lemma yields_reach_adc_cb (c : option handler) us : forall w q,
  registered w = Some (Fn_adc_cb, Ref_result) ->
  cont_cb w = c ->
  pending w = us ++ q ->
  fst (run (repeat Call_yield (length us)) w) = Returned tt /\
  pending (snd (run (repeat Call_yield (length us)) w)) = q /\
  handler_calls (snd (run (repeat Call_yield (length us)) w))
  = handler_calls w
    ++ match c with
       | Some h => map (fun u => (h, up_value u)) us
       | None => []
       end /\
  result (snd (run (repeat Call_yield (length us)) w))
  = match us with
    | [] => result w
    | u :: us' => {| reading := up_value (last us' u); fired := true |}
    end /\
  frequency (snd (run (repeat Call_yield (length us)) w)) = frequency w /\
  cont_cb (snd (run (repeat Call_yield (length us)) w)) = c /\
  registered (snd (run (repeat Call_yield (length us)) w))
  = Some (Fn_adc_cb, Ref_result).
Proof.
  induction us as [| u us IH]; intros w q Hr Hc Hp.
  - simpl. rewrite Hp. destruct c; rewrite ?app_nil_r; repeat split; auto.
  - simpl. unfold bind, yield. rewrite Hp. simpl.
    set (w1 := deliver u (set_pending (us ++ q) w)).
    assert (Hr1 : registered w1 = Some (Fn_adc_cb, Ref_result))
      by (unfold w1; rewrite deliver_registered; exact Hr).
    assert (Hc1 : cont_cb w1 = c)
      by (unfold w1; rewrite deliver_cont_cb; exact Hc).
    assert (Hp1 : pending w1 = us ++ q)
      by (unfold w1; rewrite deliver_pending; reflexivity).
    assert (Hres : result w1 = {| reading := up_value u; fired := true |}).
    { unfold w1, deliver. simpl. rewrite Hr. simpl. unfold adc_cb. simpl.
      rewrite Hc. destruct c; reflexivity. }
    assert (Hfr : frequency w1 = frequency w).
    { unfold w1, deliver. simpl. rewrite Hr. simpl. unfold adc_cb. simpl.
      rewrite Hc. destruct c; reflexivity. }
    assert (Hl : handler_calls w1
                 = handler_calls w
                   ++ match c with
                      | Some h => [(h, up_value u)]
                      | None => []
                      end).
    { unfold w1, deliver. simpl. rewrite Hr. simpl. unfold adc_cb. simpl.
      rewrite Hc. destruct c; simpl.
      - rewrite handler_calls_log. reflexivity.
      - rewrite app_nil_r. reflexivity. }
    destruct (IH w1 q Hr1 Hc1 Hp1) as (A & B & C & D & E & F & G).
    rewrite A, B, C, D, E, F, G, Hl, Hfr.
    repeat split.
    + rewrite <- app_assoc. destruct c; reflexivity.
    + destruct us as [| u' us']; [exact Hres |].
      rewrite last_cons_default. reflexivity.
Qed.

(** ** Starting a stream *)

(** What [adc_read_cont_sample] leaves alone. *)
Lemma read_cont_sample_frame channel hz cb w :
  pending (snd (adc_read_cont_sample channel hz cb w)) = pending w /\
  handler_calls (snd (adc_read_cont_sample channel hz cb w))
  = handler_calls w /\
  result (snd (adc_read_cont_sample channel hz cb w)) = result w /\
  frequency (snd (adc_read_cont_sample channel hz cb w)) = frequency w.
Proof.
  unfold adc_read_cont_sample, adc_set_callback, adc_cont_sample,
    subscribe, command, bind, modify, handler_calls. simpl.
  destruct (kernel_status w (syscalls w) <? 0);
    destruct (0 <=? kernel_status w (syscalls w)); simpl; repeat split;
    rewrite !handler_calls_of_app; simpl; rewrite !app_nil_r; reflexivity.
Qed.

(** X1.  [adc_read_cont_sample] is asynchronous: in every case it
    returns, with the status of the last system call it made; it waits
    for no upcall and consumes none, calls no handler, and leaves the
    result slot and the frequency slot as they were. *)
Theorem adc_read_cont_sample_returns_at_once
  (channel hz : Z) (cb : option handler) (w : world) :
  fst (adc_read_cont_sample channel hz cb w)
  = Returned (if kernel_status w (syscalls w) <? 0
              then kernel_status w (syscalls w)
              else kernel_status w (S (syscalls w))) /\
  pending (snd (adc_read_cont_sample channel hz cb w)) = pending w /\
  handler_calls (snd (adc_read_cont_sample channel hz cb w))
  = handler_calls w /\
  result (snd (adc_read_cont_sample channel hz cb w)) = result w /\
  frequency (snd (adc_read_cont_sample channel hz cb w)) = frequency w.
Proof.
  split; [| apply read_cont_sample_frame].
  unfold adc_read_cont_sample, adc_set_callback, adc_cont_sample,
    subscribe, command, bind, modify. simpl.
  destruct (kernel_status w (syscalls w) <? 0); [reflexivity |].
  destruct (0 <=? kernel_status w (syscalls w)); reflexivity.
Qed.

(** The world after an accepted subscription of [adc_read_cont_sample]. *)
Lemma read_cont_sample_subscribed channel hz cb w :
  0 <= kernel_status w (syscalls w) ->
  registered (snd (adc_read_cont_sample channel hz cb w))
  = Some (Fn_adc_cb, Ref_result) /\
  cont_cb (snd (adc_read_cont_sample channel hz cb w)) = cb.
Proof.
  intros H1. apply Z.leb_le in H1 as E1. apply Z.ltb_ge in H1.
  unfold adc_read_cont_sample, adc_set_callback, adc_cont_sample,
    subscribe, command, bind, modify. simpl.
  rewrite E1, H1. simpl. auto.
Qed.

(** X2.  Whatever the state before (another stream running with another
    handler, a negotiation just finished), once the subscription of
    [adc_read_cont_sample] is accepted the upcalls that follow all go to
    the new handler and to no other, in the order of delivery, even when
    the continuous-sample command itself was refused; the result slot
    holds the latest sample.  With a null handler the samples are only
    recorded in the result slot. *)
Theorem adc_read_cont_sample_last_writer_wins
  (channel hz : Z) (cb : option handler) (w : world)
  (us q : list upcall) :
  0 <= kernel_status w (syscalls w) ->
  pending w = us ++ q ->
  fst (run (repeat Call_yield (length us))
         (snd (adc_read_cont_sample channel hz cb w))) = Returned tt /\
  handler_calls (snd (run (repeat Call_yield (length us))
                        (snd (adc_read_cont_sample channel hz cb w))))
  = handler_calls w
    ++ match cb with
       | Some h => map (fun u => (h, up_value u)) us
       | None => []
       end /\
  result (snd (run (repeat Call_yield (length us))
                 (snd (adc_read_cont_sample channel hz cb w))))
  = match us with
    | [] => result w
    | u :: us' => {| reading := up_value (last us' u); fired := true |}
    end /\
  pending (snd (run (repeat Call_yield (length us))
                  (snd (adc_read_cont_sample channel hz cb w)))) = q.
Proof.
  intros H1 Hp.
  destruct (read_cont_sample_subscribed channel hz cb w H1) as [Hr Hc].
  destruct (read_cont_sample_frame channel hz cb w) as (Hq & Hl & Hres & _).
  rewrite <- Hq in Hp.
  destruct (yields_reach_adc_cb cb us _ q Hr Hc Hp)
    as (A & B & C & D & _).
  rewrite A, B, C, D, Hl, Hres. auto.
Qed.

(** Handler 1 is streaming; a stream with handler 2 is started and the
    samples 10 and 20 arrive. *)
Lemma adc_read_cont_sample_last_writer_wins_witness :
  handler_calls
    (snd (run [Call_yield; Call_yield]
            (snd (adc_read_cont_sample 3 500 (Some 2%nat)
                    (streaming 1%nat [sample 10; sample 20])))))
  = [(2%nat, 10); (2%nat, 20)].
Proof.
  assert (H : 0 <= 0) by lia.
  exact (proj1 (proj2
    (adc_read_cont_sample_last_writer_wins 3 500 (Some 2%nat)
       (streaming 1%nat [sample 10; sample 20])
       [sample 10; sample 20] [] H eq_refl))).
Defined.

(** ** The system calls of a single read *)

(** X3.  Whatever happens, [adc_read_single_sample] makes at most two
    system calls: the subscription of [adc_cb] on the result slot and,
    if that is accepted, the single-sample command for the channel.  It
    clears the local handler but never issues the cancel command: a
    stream the kernel is running is not told to stop. *)
Theorem adc_read_single_sample_never_cancels (channel : Z) (w : world) :
  trace (snd (adc_read_single_sample channel w))
  = trace w
    ++ Ev_subscribe DRIVER_NUM_ADC 0 Fn_adc_cb Ref_result
         (kernel_status w (syscalls w))
       :: (if kernel_status w (syscalls w) <? 0 then []
           else [Ev_command DRIVER_NUM_ADC 2 channel
                   (kernel_status w (S (syscalls w)))]) /\
  existsb is_cancel (trace (snd (adc_read_single_sample channel w)))
  = existsb is_cancel (trace w) /\
  cont_cb (snd (adc_read_single_sample channel w)) = None.
Proof.
  destruct (read_single_sample_syscalls channel w) as (Ht & _).
  split; [exact Ht |]. split.
  - rewrite Ht, existsb_app.
    destruct (kernel_status w (syscalls w) <? 0); simpl;
      apply orb_false_r.
  - apply (silent_read_single_sample (handler_calls w) channel
             (set_cont_cb None w)).
    split; reflexivity.
Qed.

(** ** One handler call per upcall at most *)

Lemma deliver_handler_calls u w :
  exists l,
    handler_calls (deliver u w) = handler_calls w ++ l /\
    (length l <= 1)%nat.
Proof.
  unfold deliver. destruct (registered w) as [[[ | ] ud] | ].
  - simpl. unfold adc_cb. simpl.
    destruct ud; simpl; destruct (cont_cb w) as [h | ].
    + exists [(h, up_value u)].
      split; [rewrite handler_calls_log; reflexivity | simpl; lia].
    + exists []. rewrite app_nil_r. split; [reflexivity | simpl; lia].
    + exists [(h, up_value u)].
      split; [rewrite handler_calls_log; reflexivity | simpl; lia].
    + exists []. rewrite app_nil_r. split; [reflexivity | simpl; lia].
  - exists []. rewrite app_nil_r. destruct ud; split; simpl; auto.
  - exists []. rewrite app_nil_r. split; simpl; auto.
Qed.

Lemma spent_deliver l0 n0 u q w :
  pending w = u :: q ->
  spent l0 n0 w -> spent l0 n0 (deliver u (set_pending q w)).
Proof.
  intros Hp (l & Hl & Hn). rewrite Hp in Hn. simpl in Hn.
  destruct (deliver_handler_calls u (set_pending q w)) as (l1 & Hl1 & Hn1).
  exists (l ++ l1). split.
  - rewrite Hl1. change (handler_calls (set_pending q w))
      with (handler_calls w). rewrite Hl, app_assoc. reflexivity.
  - rewrite deliver_pending. simpl. rewrite length_app. lia.
Qed.

(** The loop of [yield_for] keeps what every delivery of the upcall at
    the head of the queue keeps. *)
Lemma yield_for_loop_consumes (P : world -> Prop) cond :
  (forall u q w, pending w = u :: q -> P w ->
                 P (deliver u (set_pending q w))) ->
  forall q w, pending w = q -> P w -> P (snd (yield_for_loop cond q w)).
Proof.
  intros Hstep q. induction q as [| u q IH]; intros w Hp Hw; simpl.
  - destruct (read_flag cond w); exact Hw.
  - destruct (read_flag cond w); [exact Hw |].
    apply IH; [rewrite deliver_pending; reflexivity |].
    apply Hstep; assumption.
Qed.

Lemma spent_yield_for l0 n0 cond : preserves (spent l0 n0) (yield_for cond).
Proof.
  intros w Hw. unfold yield_for.
  apply yield_for_loop_consumes; auto using spent_deliver.
Qed.

Lemma spent_yield l0 n0 : preserves (spent l0 n0) yield.
Proof.
  intros w Hw. unfold yield.
  destruct (pending w) as [| u q] eqn:E; simpl; [exact Hw |].
  apply spent_deliver; assumption.
Qed.

Lemma spent_subscribe l0 n0 driver slot cb ud :
  preserves (spent l0 n0) (subscribe driver slot cb ud).
Proof.
  intros w (l & Hl & Hn). exists l. unfold subscribe. simpl.
  destruct (_ && _); simpl; (split; [| exact Hn]);
    unfold handler_calls; simpl; rewrite handler_calls_of_app; simpl;
    rewrite app_nil_r; exact Hl.
Qed.

Lemma spent_command l0 n0 driver opcode arg :
  preserves (spent l0 n0) (command driver opcode arg).
Proof.
  intros w (l & Hl & Hn). exists l. split; [| exact Hn].
  unfold command. simpl. rewrite handler_calls_log. simpl.
  rewrite app_nil_r. exact Hl.
Qed.

Lemma spent_store_flag l0 n0 ud b w :
  spent l0 n0 w -> spent l0 n0 (store_flag ud b w).
Proof. intros H. destruct ud; exact H. Qed.

Lemma spent_set_cont_cb l0 n0 c w :
  spent l0 n0 w -> spent l0 n0 (set_cont_cb c w).
Proof. intros H. exact H. Qed.

#[local] Hint Resolve spent_subscribe spent_command spent_store_flag
  spent_set_cont_cb : adc_keep.

Ltac keep_spent :=
  repeat match goal with
    | |- forall _, _ => intro
    | |- preserves _ (bind _ _) => apply preserves_bind
    | |- preserves _ (if _ then _ else _) => apply preserves_if
    | |- preserves _ (discard _) => apply preserves_discard
    | |- preserves _ (modify _) => apply preserves_modify
    | |- preserves _ (yield_for _) => apply spent_yield_for
    | |- preserves _ yield => apply spent_yield
    | |- preserves _ (ret _) => apply preserves_ret
    | |- preserves _ (gets _) => apply preserves_gets
    end;
  eauto with adc_keep.

Lemma spent_call l0 n0 c : preserves (spent l0 n0) (call c).
Proof.
  destruct c; simpl;
    unfold adc_read_single_sample, adc_read_cont_sample,
      adc_nearest_sampling_freq, adc_set_callback, adc_initialize,
      adc_single_sample, adc_cont_sample, adc_cancel_sampling,
      adc_compute_frequency;
    keep_spent.
Qed.

Lemma spent_run l0 n0 p : preserves (spent l0 n0) (run p).
Proof.
  induction p as [| c p IH]; simpl.
  - apply preserves_ret.
  - apply preserves_bind; [apply spent_call | intros _; exact IH].
Qed.

(** X5.  Whatever an application does with the client (any sequence of
    its calls and of yields, whatever the kernel answers), the calls
    made to user handlers are only ever added to, and no more calls are
    added than upcalls are consumed: a handler runs at most once per
    upcall. *)
Theorem handler_runs_at_most_once_per_upcall
  (p : list api_call) (w : world) :
  exists l,
    handler_calls (snd (run p w)) = handler_calls w ++ l /\
    (length l + length (pending (snd (run p w))) <= length (pending w))%nat.
Proof.
  apply (spent_run (handler_calls w) (length (pending w)) p w).
  exists []. rewrite app_nil_r. split; [reflexivity | simpl; lia].
Qed.

(** ** Distinct requests, distinct arguments *)

(** X6.  On channels of 8 bits and frequencies of 24 bits the argument
    of the continuous-sample command determines both: two requests with
    the same argument are the same request.  Beyond 24 bits this is
    lost: a frequency and the same plus 2 ^ 24 give the same
    argument. *)
Theorem chan_freq_injective (c1 f1 c2 f2 : Z) :
  uint8_range c1 -> uint8_range c2 ->
  0 <= f1 < 2 ^ 24 -> 0 <= f2 < 2 ^ 24 ->
  (chan_freq c1 f1 = chan_freq c2 f2 -> c1 = c2 /\ f1 = f2) /\
  chan_freq c1 (f1 + 2 ^ 24) = chan_freq c1 f1.
Proof.
  intros Hc1 Hc2 Hf1 Hf2. split.
  - rewrite !chan_freq_sum by assumption.
    rewrite !Z.mod_small by assumption.
    unfold uint8_range in *. lia.
  - rewrite <- (chan_freq_truncates c1 (f1 + 2 ^ 24)).
    rewrite <- (Z.mul_1_l (2 ^ 24)) at 1.
    rewrite Z.mod_add by lia.
    apply chan_freq_truncates.
Qed.

(** Channels 5 and 6 at 1000 Hz. *)
Lemma chan_freq_injective_witness :
  (chan_freq 5 1000 = chan_freq 6 1000 -> 5 = 6 /\ 1000 = 1000) /\
  chan_freq 5 (1000 + 2 ^ 24) = chan_freq 5 1000.
Proof.
  assert (H5 : uint8_range 5) by (unfold uint8_range; lia).
  assert (H6 : uint8_range 6) by (unfold uint8_range; lia).
  assert (Hf : 0 <= 1000 < 2 ^ 24) by lia.
  exact (chan_freq_injective 5 1000 6 1000 H5 H6 Hf Hf).
Defined.

(** ** The Hail application: readings in millivolts *)

Lemma millivolts_defined r :
  - 2 ^ 31 <= r * 3300 < 2 ^ 31 ->
  millivolts r = Some (Z.quot (r * 3300) 4095).
Proof.
  intros H. unfold millivolts.
  assert (E1 : (- 2 ^ 31 <=? r * 3300) = true) by (apply Z.leb_le; lia).
  assert (E2 : (r * 3300 <? 2 ^ 31) = true) by (apply Z.ltb_lt; lia).
  rewrite E1, E2. reflexivity.
Qed.

(** X7.  On the readings of a 12-bit converter the conversion of Hail is
    defined (the product fits an [int]), gives the reading scaled to
    0..3300 mV rounded down, and keeps the order of the readings. *)
Theorem millivolts_of_reading (r1 r2 : Z) :
  0 <= r1 <= r2 -> r2 <= 4095 ->
  exists m1 m2,
    millivolts r1 = Some m1 /\ millivolts r2 = Some m2 /\
    0 <= m1 <= m2 /\ m2 <= 3300 /\
    4095 * m1 <= 3300 * r1 < 4095 * (m1 + 1) /\
    (r2 = 4095 -> m2 = 3300).
Proof.
  intros H1 H2.
  exists (Z.quot (r1 * 3300) 4095), (Z.quot (r2 * 3300) 4095).
  rewrite !millivolts_defined by lia.
  repeat split; try (Z.to_euclidean_division_equations; lia).
Qed.

(** Half scale and full scale. *)
Lemma millivolts_of_reading_witness :
  exists m1 m2,
    millivolts 2048 = Some m1 /\ millivolts 4095 = Some m2 /\
    0 <= m1 <= m2 /\ m2 <= 3300 /\
    4095 * m1 <= 3300 * 2048 < 4095 * (m1 + 1) /\
    (4095 = 4095 -> m2 = 3300).
Proof.
  assert (H1 : 0 <= 2048 <= 4095) by lia.
  assert (H2 : 4095 <= 4095) by lia.
  exact (millivolts_of_reading 2048 4095 H1 H2).
Defined.

(** X8.  Hail converts whatever [adc_read_single_sample] returns: when
    the subscription or the command is refused with the status [s], the
    value shown is [s * 3300 / 4095] truncated towards zero, that is the
    one [m] with [4095 * (m - 1) < 3300 * s <= 4095 * m]: a number of
    millivolts between [s] (excluded) and 0; the status -1 is shown as
    0 mV, like a reading of 0.  No upcall is consumed. *)
Theorem read_millivolts_scales_error (channel s : Z) (w : world) :
  - 650752 <= s < 0 ->
  kernel_status w (syscalls w) = s \/
  (0 <= kernel_status w (syscalls w) /\
   kernel_status w (S (syscalls w)) = s) ->
  exists m,
    fst (read_millivolts channel w) = Returned (Some m) /\
    m = Z.quot (s * 3300) 4095 /\
    4095 * (m - 1) < 3300 * s <= 4095 * m /\
    s < m <= 0 /\
    (s = -1 -> m = 0) /\
    pending (snd (read_millivolts channel w)) = pending w.
Proof.
  intros Hs Hk. exists (Z.quot (s * 3300) 4095).
  assert (Hr : fst (adc_read_single_sample channel w) = Returned s /\
               pending (snd (adc_read_single_sample channel w)) = pending w).
  { unfold adc_read_single_sample, adc_set_callback, adc_single_sample,
      subscribe, command, bind, modify. simpl.
    destruct Hk as [H1 | [H1 H2]].
    - assert (E1 : (0 <=? kernel_status w (syscalls w)) = false)
        by (apply Z.leb_gt; lia).
      assert (E2 : (kernel_status w (syscalls w) <? 0) = true)
        by (apply Z.ltb_lt; lia).
      rewrite E1, E2. simpl. rewrite H1. auto.
    - assert (E1 : (0 <=? kernel_status w (syscalls w)) = true)
        by (apply Z.leb_le; lia).
      assert (E2 : (kernel_status w (syscalls w) <? 0) = false)
        by (apply Z.ltb_ge; lia).
      assert (E3 : (kernel_status w (S (syscalls w)) <? 0) = true)
        by (apply Z.ltb_lt; lia).
      rewrite E1, E2. simpl. rewrite E3. simpl. rewrite H2. auto. }
  destruct Hr as [Hf Hp].
  unfold read_millivolts, bind.
  destruct (adc_read_single_sample channel w) as [o w'].
  cbn [fst snd] in *. subst o. unfold ret. cbn [fst snd].
  rewrite millivolts_defined by lia.
  repeat split; try assumption; try (Z.to_euclidean_division_equations; lia).
Qed.

(** The subscription is refused with -2: Hail shows -1 mV. *)
Lemma read_millivolts_scales_error_witness :
  fst (read_millivolts 0 (boot (fun _ => -2) [sample 512]))
  = Returned (Some (-1)) /\
  pending (snd (read_millivolts 0 (boot (fun _ => -2) [sample 512])))
  = [sample 512].
Proof.
  assert (H : - 650752 <= -2 < 0) by lia.
  destruct (read_millivolts_scales_error 0 (-2)
              (boot (fun _ => -2) [sample 512]) H (or_introl eq_refl))
    as (m & A & B & _ & _ & _ & C).
  rewrite B in A. exact (conj A C).
Defined.

(** ** The Hail application: the six analog inputs *)

Lemma sampled_channels_app t1 t2 :
  sampled_channels (t1 ++ t2) = sampled_channels t1 ++ sampled_channels t2.
Proof.
  induction t1 as [| e t1 IH]; simpl; [reflexivity |].
  destruct e; simpl; rewrite ?IH; try reflexivity.
  destruct (_ && _); simpl; rewrite ?IH; reflexivity.
Qed.

(** One accepted read of Hail. *)
Lemma read_millivolts_step channel w :
  0 <= kernel_status w (syscalls w) ->
  0 <= kernel_status w (S (syscalls w)) ->
  exists w',
    read_millivolts channel w
    = (match pending w with
       | [] => Suspended
       | u :: _ => Returned (millivolts (up_value u))
       end, w') /\
    pending w' = tl (pending w) /\
    syscalls w' = S (S (syscalls w)) /\
    kernel_status w' = kernel_status w /\
    sampled_channels (trace w') = sampled_channels (trace w) ++ [channel] /\
    handler_calls w' = handler_calls w.
Proof.
  intros H1 H2.
  destruct (read_single_sample_outcome channel w H1 H2)
    as (Ho & _ & Hp & _ & Hl).
  destruct (read_single_sample_syscalls channel w) as (Ht & Hs & Hk & _).
  apply Z.ltb_ge in H1. rewrite H1 in Ht, Hs.
  unfold read_millivolts, bind.
  destruct (adc_read_single_sample channel w) as [o w']. simpl in *.
  exists w'. subst o. split.
  - destruct (pending w); reflexivity.
  - repeat split; try assumption.
    rewrite Ht, sampled_channels_app. reflexivity.
Qed.

Lemma accepts_first k w :
  accepts (S (S k)) w ->
  0 <= kernel_status w (syscalls w) /\
  0 <= kernel_status w (S (syscalls w)).
Proof.
  intros H. split; [apply (H 0%nat) | apply (H 1%nat)]; lia.
Qed.

Lemma accepts_next k w w' :
  accepts (S (S k)) w ->
  syscalls w' = S (S (syscalls w)) ->
  kernel_status w' = kernel_status w ->
  accepts k w'.
Proof.
  intros H Hs Hk n Hn. rewrite Hs, Hk.
  replace (n + S (S (syscalls w)))%nat with (S (S n) + syscalls w)%nat
    by lia.
  apply H. lia.
Qed.

Ltac next_read :=
  match goal with
  | H : accepts (S (S _)) ?w, Hq : pending ?w = _
    |- context [read_millivolts ?ch ?w] =>
      let w' := fresh "w" in
      let E := fresh "E" in
      let Hp := fresh "Hp" in
      let Hs := fresh "Hs" in
      let Hk := fresh "Hk" in
      let Ht := fresh "Ht" in
      let Hl := fresh "Hl" in
      let A1 := fresh "A" in
      let A2 := fresh "A" in
      destruct (accepts_first _ w H) as [A1 A2];
      destruct (read_millivolts_step ch w A1 A2)
        as (w' & E & Hp & Hs & Hk & Ht & Hl);
      rewrite E, Hq; cbv beta iota;
      rewrite Hq in Hp; simpl in Hp;
      pose proof (accepts_next _ w w' H Hs Hk);
      clear E A1 A2 Hs Hk H Hq
  end.

(** X9.  The analog block of [sample_sensors]: when the kernel accepts
    its twelve system calls and delivers six samples, the block returns
    the six conversions in the order of delivery, having asked for the
    channels 0, 1, 3, 4, 5 and 6 in this order (never for channel 2);
    it consumes exactly the six upcalls and calls no handler. *)
Theorem sample_sensors_analog_reads_in_order
  (w : world) (u0 u1 u2 u3 u4 u5 : upcall) (q : list upcall) :
  accepts 12 w ->
  pending w = u0 :: u1 :: u2 :: u3 :: u4 :: u5 :: q ->
  fst (sample_sensors_analog w)
  = Returned [millivolts (up_value u0); millivolts (up_value u1);
              millivolts (up_value u2); millivolts (up_value u3);
              millivolts (up_value u4); millivolts (up_value u5)] /\
  pending (snd (sample_sensors_analog w)) = q /\
  sampled_channels (trace (snd (sample_sensors_analog w)))
  = sampled_channels (trace w) ++ [0; 1; 3; 4; 5; 6] /\
  handler_calls (snd (sample_sensors_analog w)) = handler_calls w.
Proof.
  intros H Hp. unfold sample_sensors_analog, bind.
  do 6 next_read.
  unfold ret. simpl.
  repeat split; try assumption.
  - rewrite Ht4, Ht3, Ht2, Ht1, Ht0, Ht. rewrite <- !app_assoc. reflexivity.
  - congruence.
Qed.

(** Six samples, from 0 to full scale. *)
Lemma sample_sensors_analog_reads_in_order_witness :
  fst (sample_sensors_analog
         (boot always_ok [sample 0; sample 1000; sample 2048; sample 4095;
                          sample 1; sample 4094]))
  = Returned [Some 0; Some 805; Some 1650; Some 3300; Some 0; Some 3299].
Proof.
  assert (H : accepts 12 (boot always_ok [sample 0; sample 1000; sample 2048;
                                          sample 4095; sample 1; sample 4094]))
    by (intros n _; unfold always_ok; simpl; lia).
  exact (proj1 (sample_sensors_analog_reads_in_order _
                  (sample 0) (sample 1000) (sample 2048) (sample 4095)
                  (sample 1) (sample 4094) [] H eq_refl)).
Defined.

(** X10.  There is no timeout: when the kernel accepts the system calls
    but delivers fewer than six samples, the block never returns; the
    application stays suspended in the read that found the queue
    empty. *)
Theorem sample_sensors_analog_starves (w : world) :
  accepts 12 w ->
  (length (pending w) < 6)%nat ->
  fst (sample_sensors_analog w) = Suspended /\
  pending (snd (sample_sensors_analog w)) = [] /\
  sampled_channels (trace (snd (sample_sensors_analog w)))
  = sampled_channels (trace w)
    ++ firstn (S (length (pending w))) [0; 1; 3; 4; 5; 6].
Proof.
  intros H Hlen. unfold sample_sensors_analog, bind.
  destruct (pending w) as [| u0 p0] eqn:Hp; [| destruct p0 as [| u1 p1];
    [| destruct p1 as [| u2 p2]; [| destruct p2 as [| u3 p3];
    [| destruct p3 as [| u4 p4]; [| destruct p4 as [| u5 p5];
    [| simpl in Hlen; lia]]]]]];
    repeat next_read; simpl; repeat split; try assumption.
  all: repeat match goal with
         | Ht : sampled_channels (trace ?w') = _
           |- context [sampled_channels (trace ?w')] => rewrite Ht; clear Ht
         end; rewrite <- ?app_assoc; reflexivity.
Qed.

(** Two samples only: the third read never ends. *)
Lemma sample_sensors_analog_starves_witness :
  fst (sample_sensors_analog (boot always_ok [sample 1; sample 2]))
  = Suspended /\
  sampled_channels
    (trace (snd (sample_sensors_analog (boot always_ok [sample 1; sample 2]))))
  = [0; 1; 3].
Proof.
  assert (H : accepts 12 (boot always_ok [sample 1; sample 2]))
    by (intros n _; unfold always_ok; simpl; lia).
  assert (Hlen : (length (pending (boot always_ok [sample 1; sample 2]))
                  < 6)%nat)
    by (simpl; lia).
  pose proof (sample_sensors_analog_starves _ H Hlen) as (A & _ & B).
  exact (conj A B).
Defined.
